(** * GBIF occurrence queries: [code/duck_gbif.py] and [code/clickhouse_gbif.py]

    The two scripts format SQL text from caller-supplied Python values, hand
    the text to a query engine (an embedded DuckDB session, or a ClickHouse
    binary run as a subprocess) and return a table or [None].

    The embedding below follows the scripts function by function:
    - Python values, truthiness and f-string formatting ([Py]);
    - the query text each function builds ([DuckGbif], [ClickhouseGbif]);
    - the effects (console output, engine sessions, exceptions) as a
      state-and-exception monad over an explicit [world], with
      [try]/[except Exception]/[finally] as a combinator. *)

From Stdlib Require Import ZArith String Ascii DecimalString DecimalPos List Bool
  Arith Lia.
Import ListNotations.
Open Scope string_scope.

(* ================================================================== *)
(** * Python values                                                    *)
(* ================================================================== *)

Module Py.

(** The argument values the scripts are called with: [None], booleans,
    integers and strings. *)
Inductive value : Type :=
| VNone
| VBool (b : bool)
| VInt (z : Z)
| VStr (s : string).

(** [bool(v)], the test behind [if v:]. *)
Definition truthy (v : value) : bool :=
  match v with
  | VNone => false
  | VBool b => b
  | VInt z => negb (z =? 0)%Z
  | VStr s => negb (s =? "")
  end.

(** [str(z)] for an integer: decimal digits, with a leading minus sign. *)
Definition str_int (z : Z) : string :=
  NilEmpty.string_of_int (Z.to_int z).

(** The text an f-string field [{v}] interpolates, that is [str(v)]. *)
Definition str (v : value) : string :=
  match v with
  | VNone => "None"
  | VBool true => "True"
  | VBool false => "False"
  | VInt z => str_int z
  | VStr s => s
  end.

(** The line feed of a triple-quoted literal. *)
Definition nl : string := String "010"%char "".

(** An exception object: whether its class derives from [Exception] (so
    that [except Exception] catches it; [KeyboardInterrupt] and
    [SystemExit] do not), and the text [str(e)]. *)
Record exn : Type := mk_exn {
  exn_is_Exception : bool;
  exn_str : string
}.

(** How a call ends: it returns a value or an exception leaves it. *)
Inductive outcome (A : Type) : Type :=
| Returned (a : A)
| Raised (e : exn).
Arguments Returned {A} a.
Arguments Raised {A} e.

(** A [pandas.DataFrame], as far as the scripts look at it: a header and
    rows; [len(df)] is the number of rows. *)
Record DataFrame : Type := mk_df {
  df_columns : list string;
  df_rows : list (list string)
}.

Definition len (df : DataFrame) : Z := Z.of_nat (List.length (df_rows df)).

End Py.

Import Py.

(* ================================================================== *)
(** * Reading query text                                               *)
(* ================================================================== *)

(** The properties of the generated SQL are read off its text: where a
    fragment occurs, and which blank-separated words the text is made of. *)
Module Text.

(** [pat] is an initial segment of [s]. *)
Fixpoint starts_with (pat s : string) : bool :=
  match pat, s with
  | EmptyString, _ => true
  | String _ _, EmptyString => false
  | String a pat', String b s' => Ascii.eqb a b && starts_with pat' s'
  end.

(** The number of positions of [s] at which [pat] begins. *)
Fixpoint occurrences (pat s : string) : nat :=
  (if starts_with pat s then 1 else 0) +
  match s with
  | EmptyString => 0
  | String _ s' => occurrences pat s'
  end.

(** [c] is one of the characters of [s]. *)
Fixpoint mem (c : ascii) (s : string) : bool :=
  match s with
  | EmptyString => false
  | String a s' => Ascii.eqb c a || mem c s'
  end.

(** Blank characters: space, tab, line feed, carriage return. *)
Definition is_blank (c : ascii) : bool :=
  Ascii.eqb c " " || Ascii.eqb c "009" || Ascii.eqb c "010" || Ascii.eqb c "013".

(** No character of [s] is blank. *)
Fixpoint blank_free (s : string) : bool :=
  match s with
  | EmptyString => true
  | String a s' => negb (is_blank a) && blank_free s'
  end.

(** Every character of [s] is blank. *)
Fixpoint all_blank (s : string) : bool :=
  match s with
  | EmptyString => true
  | String a s' => is_blank a && all_blank s'
  end.

(** Close the word read so far, if there is one. *)
Definition flush (word : string) : list string :=
  match word with
  | EmptyString => []
  | _ => [word]
  end.

(** The maximal blank-free runs of [s], left to right; [word] is the run
    being read. *)
Fixpoint words_from (word s : string) : list string :=
  match s with
  | EmptyString => flush word
  | String c s' =>
      if is_blank c then (flush word ++ words_from "" s')%list
      else words_from (word ++ String c "") s'
  end.

Definition words (s : string) : list string := words_from "" s.

End Text.

(* ================================================================== *)
(** * Query construction in [duck_gbif.py]                             *)
(* ================================================================== *)

Module DuckGbif.

(** ** [read_gbif_from_s3] *)

(** Line 27: the bucket region is written into the literal. *)
Definition read_gbif_from_s3_s3_path (snapshot_date : value) : string :=
  "s3://gbif-open-data-us-east-1/occurrence/" ++ str snapshot_date
    ++ "/occurrence.parquet/*".

(** Lines 30-32. *)
Definition read_gbif_from_s3_query (snapshot_date limit : value) : string :=
  let s3_path := read_gbif_from_s3_s3_path snapshot_date in
  let query := "SELECT * FROM read_parquet('" ++ s3_path ++ "')" in
  let query := if truthy limit then query ++ " LIMIT " ++ str limit else query in
  query.

(** ** [get_top_countries_by_species] *)

(** Line 75. *)
Definition get_top_countries_by_species_s3_path
    (snapshot_date region : value) : string :=
  "s3://gbif-open-data-" ++ str region ++ "/occurrence/" ++ str snapshot_date
    ++ "/occurrence.parquet/*".

(** Lines 78-87: the triple-quoted template, line by line. *)
Definition get_top_countries_by_species_query
    (snapshot_date region limit : value) : string :=
  let s3_path := get_top_countries_by_species_s3_path snapshot_date region in
  nl ++
  "        SELECT " ++ nl ++
  "            countrycode, " ++ nl ++
  "            COUNT(DISTINCT specieskey) AS distinct_species_count " ++ nl ++
  "        FROM read_parquet('" ++ s3_path ++ "')" ++ nl ++
  "        WHERE countrycode IS NOT NULL" ++ nl ++
  "        GROUP BY countrycode " ++ nl ++
  "        ORDER BY distinct_species_count DESC " ++ nl ++
  "        LIMIT " ++ str limit ++ nl ++
  "        ".

(** ** [query_gbif_with_filter] *)

(** Line 128. *)
Definition query_gbif_with_filter_s3_path
    (snapshot_date region : value) : string :=
  "s3://gbif-open-data-" ++ str region ++ "/occurrence/" ++ str snapshot_date
    ++ "/occurrence.parquet/*".

(** Lines 131-140. *)
Definition query_gbif_with_filter_query
    (snapshot_date region country_code species limit : value) : string :=
  let s3_path := query_gbif_with_filter_s3_path snapshot_date region in
  let query := "SELECT * FROM read_parquet('" ++ s3_path ++ "') WHERE 1=1" in
  let query :=
    if truthy country_code
    then query ++ " AND countrycode = '" ++ str country_code ++ "'"
    else query in
  let query :=
    if truthy species
    then query ++ " AND species LIKE '%" ++ str species ++ "%'"
    else query in
  let query := if truthy limit then query ++ " LIMIT " ++ str limit else query in
  query.

End DuckGbif.

(* ================================================================== *)
(** * Query text of [clickhouse_gbif.py]                               *)
(* ================================================================== *)

Module ClickhouseGbif.

(** The object URL inside the script's query (line 21). *)
Definition query_url : string :=
  "https://gbif-open-data-eu-central-1.s3.eu-central-1.amazonaws.com/occurrence/2025-11-01/occurrence.parquet/*".

(** Lines 19-25: the module-level [query]. *)
Definition query : string :=
  nl ++
  "SELECT countrycode, countDistinct(specieskey) AS distinct_species_count " ++ nl ++
  "FROM s3('" ++ query_url ++ "', Parquet) " ++ nl ++
  "GROUP BY countrycode " ++ nl ++
  "ORDER BY distinct_species_count DESC " ++ nl ++
  "LIMIT 10" ++ nl.

(** Line 7: the argument vector of the external process. *)
Definition cmd (query : string) : list string :=
  ["./clickhouse"; "local"; "-q"; query; "--format"; "CSVWithNames"].

End ClickhouseGbif.

(* ================================================================== *)
(** * Effects: console, engine sessions, exceptions                    *)
(* ================================================================== *)

(** What a call can change: the lines printed so far, the DuckDB sessions
    that are open (by handle; [next_conn] is the handle the next
    [duckdb.connect()] gets), and the state [env] of everything outside the
    Python process (the engines, the network, the object store). *)
Record world (E : Type) : Type := mk_world {
  console : list string;
  next_conn : nat;
  open_conns : list nat;
  env : E
}.
Arguments mk_world {E} _ _ _ _.
Arguments console {E} _.
Arguments next_conn {E} _.
Arguments open_conns {E} _.
Arguments env {E} _.

(** The result of [subprocess.run(..., capture_output=True, text=True)]. *)
Record CompletedProcess : Type := mk_completed {
  returncode : Z;
  stdout : string;
  stderr : string
}.

(** A computation runs from a world to a world and returns or raises; what
    was printed before an exception stays printed. *)
Definition M (E A : Type) : Type := world E -> world E * outcome A.

Definition ret {E A} (a : A) : M E A := fun w => (w, Returned a).

Definition raise {E A} (e : exn) : M E A := fun w => (w, Raised e).

Definition bind {E A B} (c : M E A) (k : A -> M E B) : M E B :=
  fun w =>
    match c w with
    | (w1, Returned a) => k a w1
    | (w1, Raised e) => (w1, Raised e)
    end.

Declare Scope py_scope.
Delimit Scope py_scope with py.
Notation "x <- c ;; k" := (bind c (fun x => k))
  (at level 61, c at next level, right associativity) : py_scope.
Notation "c ;; k" := (bind c (fun _ => k))
  (at level 61, right associativity) : py_scope.
Open Scope py_scope.

(** [print(line)]. *)
Definition print {E} (line : string) : M E unit :=
  fun w =>
    (mk_world (console w ++ [line])%list (next_conn w) (open_conns w) (env w),
     Returned tt).

(** [try: body / except Exception as e: handler(e) / finally: final].  The
    handler runs for an exception of class [Exception] only; [final] runs
    on every way out of the body and of the handler, and an exception of
    [final] replaces the pending result. *)
Definition try_except_finally {E A}
    (body : M E A) (handler : exn -> M E A) (final : M E unit) : M E A :=
  fun w =>
    let '(w2, o2) :=
      match body w with
      | (w1, Returned a) => (w1, Returned a)
      | (w1, Raised e) =>
          if exn_is_Exception e then handler e w1 else (w1, Raised e)
      end in
    match final w2 with
    | (w3, Returned _) => (w3, o2)
    | (w3, Raised e') => (w3, Raised e')
    end.

Section Scripts.

(** The outside world is a parameter of the model: what the DuckDB engine
    answers to a statement run on a session ([conn.execute(sql)], and for a
    query the conversion [.df()] of its result), what running a command
    gives, and what [pandas.read_csv] makes of a text.  Each may raise. *)
Variable E : Type.
Variable engine_execute : E -> nat -> string -> E * outcome DataFrame.
Variable subprocess_run : E -> list string -> E * outcome CompletedProcess.
Variable read_csv : string -> outcome DataFrame.

(** [duckdb.connect()]: a fresh in-memory session. *)
Definition connect : M E nat :=
  fun w =>
    (mk_world (console w) (S (next_conn w)) (next_conn w :: open_conns w) (env w),
     Returned (next_conn w)).

(** [conn.close()]. *)
Definition close (conn : nat) : M E unit :=
  fun w =>
    (mk_world (console w) (next_conn w)
       (List.remove Nat.eq_dec conn (open_conns w)) (env w),
     Returned tt).

(** [conn.execute(sql)]. *)
Definition execute (conn : nat) (sql : string) : M E DataFrame :=
  fun w =>
    let '(e', r) := engine_execute (env w) conn sql in
    (mk_world (console w) (next_conn w) (open_conns w) e', r).

(** ** [duck_gbif.py] *)

(** Lines 19-38, the [try] block. *)
Definition read_gbif_from_s3_try (conn : nat) (snapshot_date limit : value)
  : M E (option DataFrame) :=
  execute conn "INSTALL httpfs;" ;;
  execute conn "LOAD httpfs;" ;;
  execute conn "SET s3_region='us-east-1';" ;;
  result <- execute conn (DuckGbif.read_gbif_from_s3_query snapshot_date limit) ;;
  print ("Successfully read " ++ str_int (len result) ++ " rows from GBIF") ;;
  ret (Some result).

(** Lines 40-46, the handler. *)
Definition read_gbif_from_s3_except (e : exn) : M E (option DataFrame) :=
  print ("Error reading from S3: " ++ exn_str e) ;;
  print (nl ++ "Troubleshooting tips:") ;;
  print "1. Ensure the snapshot date exists (e.g., '2023-06-01', '2024-01-01')" ;;
  print "2. Check your internet connection" ;;
  print "3. Verify the S3 path is correct" ;;
  ret None.

Definition read_gbif_from_s3 (snapshot_date limit : value)
  : M E (option DataFrame) :=
  conn <- connect ;;
  try_except_finally
    (read_gbif_from_s3_try conn snapshot_date limit)
    read_gbif_from_s3_except
    (close conn).

(** Lines 66-93. *)
Definition get_top_countries_by_species_try
    (conn : nat) (snapshot_date region limit : value)
  : M E (option DataFrame) :=
  execute conn "INSTALL httpfs;" ;;
  execute conn "LOAD httpfs;" ;;
  execute conn ("SET s3_region='" ++ str region ++ "';") ;;
  print ("Querying GBIF data from " ++ str region ++ "...") ;;
  result <- execute conn
    (DuckGbif.get_top_countries_by_species_query snapshot_date region limit) ;;
  print (nl ++ "Top " ++ str limit ++ " countries by distinct species count:") ;;
  ret (Some result).

(** Lines 95-101. *)
Definition get_top_countries_by_species_except
    (snapshot_date region : value) (e : exn) : M E (option DataFrame) :=
  print ("Error querying S3: " ++ exn_str e) ;;
  print (nl ++ "Troubleshooting tips:") ;;
  print ("1. Verify snapshot date '" ++ str snapshot_date ++ "' exists") ;;
  print ("2. Check region '" ++ str region
           ++ "' is correct (us-east-1 or eu-central-1)") ;;
  print "3. Ensure internet connection is stable" ;;
  ret None.

Definition get_top_countries_by_species (snapshot_date region limit : value)
  : M E (option DataFrame) :=
  conn <- connect ;;
  try_except_finally
    (get_top_countries_by_species_try conn snapshot_date region limit)
    (get_top_countries_by_species_except snapshot_date region)
    (close conn).

(** Lines 123-144. *)
Definition query_gbif_with_filter_try
    (conn : nat) (snapshot_date region country_code species limit : value)
  : M E (option DataFrame) :=
  execute conn "INSTALL httpfs;" ;;
  execute conn "LOAD httpfs;" ;;
  execute conn ("SET s3_region='" ++ str region ++ "';") ;;
  result <- execute conn
    (DuckGbif.query_gbif_with_filter_query
       snapshot_date region country_code species limit) ;;
  print ("Query returned " ++ str_int (len result) ++ " rows") ;;
  ret (Some result).

(** Lines 146-148. *)
Definition query_gbif_with_filter_except (e : exn) : M E (option DataFrame) :=
  print ("Error: " ++ exn_str e) ;;
  ret None.

Definition query_gbif_with_filter
    (snapshot_date region country_code species limit : value)
  : M E (option DataFrame) :=
  conn <- connect ;;
  try_except_finally
    (query_gbif_with_filter_try
       conn snapshot_date region country_code species limit)
    query_gbif_with_filter_except
    (close conn).

(** ** [clickhouse_gbif.py] *)

(** [subprocess.run(cmd, capture_output=True, text=True)]. *)
Definition run (cmd : list string) : M E CompletedProcess :=
  fun w =>
    let '(e', r) := subprocess_run (env w) cmd in
    (mk_world (console w) (next_conn w) (open_conns w) e', r).

(** [pd.read_csv(io.StringIO(text))]. *)
Definition pd_read_csv (text : string) : M E DataFrame :=
  fun w => (w, read_csv text).

(** Lines 5-16. *)
Definition clickhouse_query (query : string) : M E (option DataFrame) :=
  result <- run (ClickhouseGbif.cmd query) ;;
  if (returncode result =? 0)%Z then
    df <- pd_read_csv (stdout result) ;;
    ret (Some df)
  else
    print ("Error: " ++ stderr result) ;;
    ret None.

End Scripts.

Arguments connect {E}.
Arguments close {E} conn.
Arguments execute {E} engine_execute conn sql.
Arguments read_gbif_from_s3_try {E} engine_execute conn snapshot_date limit.
Arguments read_gbif_from_s3_except {E} e.
Arguments read_gbif_from_s3 {E} engine_execute snapshot_date limit.
Arguments get_top_countries_by_species_try
  {E} engine_execute conn snapshot_date region limit.
Arguments get_top_countries_by_species_except {E} snapshot_date region e.
Arguments get_top_countries_by_species
  {E} engine_execute snapshot_date region limit.
Arguments query_gbif_with_filter_try
  {E} engine_execute conn snapshot_date region country_code species limit.
Arguments query_gbif_with_filter_except {E} e.
Arguments query_gbif_with_filter
  {E} engine_execute snapshot_date region country_code species limit.
Arguments run {E} subprocess_run cmd.
Arguments pd_read_csv {E} read_csv text.
Arguments clickhouse_query {E} subprocess_run read_csv query.

(** ** Vocabulary of the session and failure properties *)

(** The session [conn] is not open in [after], and every other session is
    open in [after] exactly when it was in [before]. *)
Definition session_closed {E} (conn : nat) (before after : world E) : Prop :=
  ~ In conn (open_conns after)
  /\ forall c, c <> conn -> (In c (open_conns after) <-> In c (open_conns before)).

(** The ways out of an embedded-backend call: a table (success), [None]
    (handled failure), or an exception that [except Exception] does not
    catch (unexpected failure). *)
Definition exit_path (o : outcome (option DataFrame)) : Prop :=
  (exists df, o = Returned (Some df))
  \/ o = Returned None
  \/ (exists e, o = Raised e /\ exn_is_Exception e = false).

(** A computation that opens and closes no session. *)
Definition keeps_sessions {E A} (c : M E A) : Prop :=
  forall w, open_conns (fst (c w)) = open_conns w.

(** A computation that returns a table or raises, never [None]. *)
Definition returns_table {E} (c : M E (option DataFrame)) : Prop :=
  forall w, match snd (c w) with
            | Returned r => r <> None
            | Raised _ => True
            end.

(* ================================================================== *)
(** * Concrete outside worlds                                          *)
(* ================================================================== *)

(** Stand-ins for the engines, used to run the model on concrete inputs. *)
Module Sample.

Definition w0 : world unit := mk_world [] 0 [] tt.

Definition table : DataFrame :=
  mk_df ["countrycode"; "distinct_species_count"] [["US"; "3"]; ["DE"; "2"]].

(** An engine that answers every statement. *)
Definition engine_ok (_ : unit) (_ : nat) (_ : string) : unit * outcome DataFrame :=
  (tt, Returned table).

(** An engine whose remote reads fail with an ordinary error; the
    extension and settings statements succeed. *)
Definition engine_io_error (_ : unit) (_ : nat) (sql : string)
  : unit * outcome DataFrame :=
  if Nat.eqb (Text.occurrences "read_parquet" sql) 0
  then (tt, Returned (mk_df [] []))
  else (tt, Raised (mk_exn true "IO Error: Connection error for HTTP HEAD")).

(** An engine call interrupted from the keyboard: [KeyboardInterrupt] is
    not an [Exception]. *)
Definition engine_interrupted (_ : unit) (_ : nat) (_ : string)
  : unit * outcome DataFrame :=
  (tt, Raised (mk_exn false "KeyboardInterrupt")).

(** A process that exits with status 1. *)
Definition process_failed (_ : unit) (_ : list string)
  : unit * outcome CompletedProcess :=
  (tt, Returned (mk_completed 1 "" "Code: 62. DB::Exception: Syntax error")).

(** A process that exits with status 0 and prints nothing. *)
Definition process_silent (_ : unit) (_ : list string)
  : unit * outcome CompletedProcess :=
  (tt, Returned (mk_completed 0 "" "")).

(** A reader that, like [pandas.read_csv], rejects an empty text with
    [EmptyDataError]; any other text becomes a one-column table. *)
Definition read_csv_sample (text : string) : outcome DataFrame :=
  match text with
  | EmptyString => Raised (mk_exn true "No columns to parse from file")
  | _ => Returned (mk_df [text] [])
  end.

End Sample.

(** The path template of the specification:
    [<scheme>://gbif-open-data-<region>/occurrence/<snapshot_date>/occurrence.parquet/*]. *)
Definition storage_path_template (scheme region snapshot_date : string) : string :=
  scheme ++ "://gbif-open-data-" ++ region ++ "/occurrence/" ++ snapshot_date
    ++ "/occurrence.parquet/*".

(** Parameter text that does not itself spell the keyword [LIMIT]. *)
Definition limit_free (v : value) : Prop :=
  Text.occurrences "LIMIT" (str v) = 0.

(* ================================================================== *)
(** * The scripts' entry points                                        *)
(* ================================================================== *)

(** [s * n], as in the rule ["=" * 50]. *)
Fixpoint repeat_string (s : string) (n : nat) : string :=
  match n with
  | O => ""
  | S n' => s ++ repeat_string s n'
  end.

Section EntryPoints.

(** Besides the engines, the entry points render a table as text:
    [df.to_string(index=False)] in [duck_gbif.py] and [str(df)], which
    [print(df)] writes, in [clickhouse_gbif.py]. *)
Variable E : Type.
Variable engine_execute : E -> nat -> string -> E * outcome DataFrame.
Variable subprocess_run : E -> list string -> E * outcome CompletedProcess.
Variable read_csv : string -> outcome DataFrame.
Variable to_string : DataFrame -> string.
Variable df_str : DataFrame -> string.

(** [duck_gbif.py], lines 155-167: the [__main__] block. *)
Definition duck_gbif_main : M E unit :=
  print ("Querying GBIF occurrence data from S3..." ++ nl) ;;
  df_top_countries <-
    get_top_countries_by_species engine_execute
      (VStr "2025-10-01") (VStr "eu-central-1") (VInt 10) ;;
  match df_top_countries with
  | Some df =>
      print (nl ++ repeat_string "=" 50) ;;
      print (to_string df) ;;
      print (repeat_string "=" 50)
  | None => ret tt
  end.

(** [clickhouse_gbif.py], lines 27-28: the module-level statements. *)
Definition clickhouse_gbif_main : M E unit :=
  df <- clickhouse_query subprocess_run read_csv ClickhouseGbif.query ;;
  print (match df with
         | Some table => df_str table
         | None => "None"
         end).

End EntryPoints.

Arguments duck_gbif_main {E} engine_execute to_string.
Arguments clickhouse_gbif_main {E} subprocess_run read_csv df_str.

(** ** Observing the engine *)

(** An engine that also records, in order, each statement it is given and
    the session it is given on. *)
Definition traced {E} (engine_execute : E -> nat -> string -> E * outcome DataFrame)
  : E * list (nat * string) -> nat -> string
    -> (E * list (nat * string)) * outcome DataFrame :=
  fun st conn sql =>
    let '(e', r) := engine_execute (fst st) conn sql in
    ((e', (snd st ++ [(conn, sql)])%list), r).

(** The world an untraced run sees. *)
Definition untraced {E} (w : world (E * list (nat * string))) : world E :=
  mk_world (console w) (next_conn w) (open_conns w) (fst (env w)).

(** Every open session was handed out by an earlier [duckdb.connect()]. *)
Definition handles_fresh {E} (w : world E) : Prop :=
  Forall (fun conn => conn < next_conn w) (open_conns w).

(** The order of statements a call is to keep, as a function of its own:
    send [first], then the statements of [rest] one by one, and stop after
    the first one that raises.  It gives the engine state reached, the
    statements sent, and the answer to the last of them. *)
Fixpoint send_until_raise {E}
    (engine_execute : E -> nat -> string -> E * outcome DataFrame)
    (e : E) (first : nat * string) (rest : list (nat * string)) {struct rest}
  : E * list (nat * string) * outcome DataFrame :=
  let '(e', r) := engine_execute e (fst first) (snd first) in
  match r, rest with
  | Returned _, next :: rest' =>
      let '(e'', sent, r') := send_until_raise engine_execute e' next rest' in
      (e'', first :: sent, r')
  | _, _ => (e', [first], r)
  end.


(** CPython refuses to convert an integer of more than 4300 decimal digits
    to text (its default [int_max_str_digits]); [str_int] stands for
    [str(z)] on the integers it does convert. *)
Definition int_max_str_digits : Z := 4300.

Definition str_int_defined (z : Z) : Prop :=
  (Z.of_nat (String.length (str_int (Z.abs z))) <= int_max_str_digits)%Z.

(** More concrete outside worlds. *)
Module Demo.

(** A process that exits with status 0 and prints a header and one row. *)
Definition process_ok (_ : unit) (_ : list string)
  : unit * outcome CompletedProcess :=
  (tt, Returned (mk_completed 0
                   ("countrycode,distinct_species_count" ++ nl ++ "US,3" ++ nl)
                   "")).

(** No executable at [./clickhouse]: [subprocess.run] raises
    [FileNotFoundError]. *)
Definition process_missing (_ : unit) (_ : list string)
  : unit * outcome CompletedProcess :=
  (tt, Raised (mk_exn true "[Errno 2] No such file or directory: './clickhouse'")).

(** A rendering of a table: its header, blank-separated. *)
Definition header_line (df : DataFrame) : string :=
  String.concat " " (df_columns df).

Definition w0_traced : world (unit * list (nat * string)) :=
  mk_world [] 0 [] (tt, []).

(** A world in which an earlier caller still holds session 1. *)
Definition w_busy : world unit := mk_world [] 3 [1] tt.

End Demo.

Import Text DuckGbif.

(* ================================================================== *)
(** * Facts about text                                                 *)
(* ================================================================== *)

Lemma append_nil_r (s : string) : s ++ "" = s.
Proof. induction s as [|c s IH]; simpl; [reflexivity | now rewrite IH]. Qed.

Lemma append_assoc (a b c : string) : (a ++ b) ++ c = a ++ (b ++ c).
Proof. induction a as [|x a IH]; simpl; [reflexivity | now rewrite IH]. Qed.

(** A character foreign to the pattern stops every match that reaches it. *)
Lemma starts_with_app_sep (pat p : string) (c : ascii) (rest : string) :
  mem c pat = false ->
  starts_with pat (p ++ String c rest) = starts_with pat p.
Proof.
  revert p. induction pat as [|a pat IH]; intros p Hc; [now destruct p|].
  simpl in Hc. apply orb_false_iff in Hc. destruct Hc as [Hca Hmem].
  destruct p as [|b p]; simpl.
  - rewrite Ascii.eqb_sym, Hca. reflexivity.
  - rewrite (IH p Hmem). reflexivity.
Qed.

(** Across such a character the occurrences on both sides add up. *)
Lemma occurrences_app_sep (pat p : string) (c : ascii) (rest : string) :
  mem c pat = false ->
  starts_with pat "" = false ->
  occurrences pat (p ++ String c rest)
  = occurrences pat p + occurrences pat (String c rest).
Proof.
  intros Hc Hne. induction p as [|b p IH].
  - assert (H0 : occurrences pat "" = 0)
      by (cbn [occurrences]; rewrite Hne; reflexivity).
    cbn [append]. rewrite H0. reflexivity.
  - remember (occurrences pat (String c rest)) as k eqn:Hk.
    change (String b p ++ String c rest) with (String b (p ++ String c rest)).
    cbn [occurrences].
    change (String b (p ++ String c rest)) with (String b p ++ String c rest).
    rewrite starts_with_app_sep by exact Hc. rewrite IH. lia.
Qed.

Lemma starts_with_extend (pat ext s : string) :
  starts_with (pat ++ ext) s = true -> starts_with pat s = true.
Proof.
  revert s. induction pat as [|a pat IH]; intros s H; [now destruct s|].
  destruct s as [|b s]; simpl in *; [discriminate|].
  apply andb_true_iff in H. destruct H as [Hab H].
  rewrite Hab, (IH s H). reflexivity.
Qed.

(** A longer pattern occurs no more often than its beginning. *)
Lemma occurrences_extend_le (pat ext s : string) :
  occurrences (pat ++ ext) s <= occurrences pat s.
Proof.
  induction s as [|b s IH]; cbn [occurrences].
  - destruct (starts_with (pat ++ ext) "") eqn:H; [|lia].
    now rewrite (starts_with_extend _ _ _ H).
  - destruct (starts_with (pat ++ ext) (String b s)) eqn:H; [|lia].
    rewrite (starts_with_extend _ _ _ H). lia.
Qed.

Lemma starts_with_app_refl (pat rest : string) :
  starts_with pat (pat ++ rest) = true.
Proof.
  induction pat as [|a pat IH]; simpl; [reflexivity|].
  now rewrite Ascii.eqb_refl, IH.
Qed.

(** A text built around a fragment has that fragment at least once. *)
Lemma occurrences_infix (pat before rest : string) :
  1 <= occurrences pat (before ++ pat ++ rest).
Proof.
  induction before as [|b before IH].
  - cbn [append]. destruct (pat ++ rest) eqn:Hs.
    + cbn [occurrences]. rewrite <- Hs, starts_with_app_refl. lia.
    + cbn [occurrences]. rewrite <- Hs, starts_with_app_refl. lia.
  - change (String b before ++ pat ++ rest)
      with (String b (before ++ pat ++ rest)).
    cbn [occurrences]. lia.
Qed.

(** Reading a blank-free stretch only lengthens the current word. *)
Lemma words_from_blank_free (p word rest : string) :
  blank_free p = true ->
  words_from word (p ++ rest) = words_from (word ++ p) rest.
Proof.
  revert word. induction p as [|c p IH]; intros word Hp.
  - now rewrite append_nil_r.
  - simpl in Hp. apply andb_true_iff in Hp. destruct Hp as [Hc Hp].
    apply negb_true_iff in Hc. cbn [append words_from]. rewrite Hc.
    rewrite (IH _ Hp), append_assoc. reflexivity.
Qed.

(** Blanks at the end of a text add no word. *)
Lemma words_from_trailing_blanks (s tail word : string) :
  all_blank tail = true ->
  words_from word (s ++ tail) = words_from word s.
Proof.
  intros Ht. revert word. induction s as [|c s IH]; intros word.
  - cbn [append]. clear -Ht. revert word.
    induction tail as [|c tail IH]; intros word; [reflexivity|].
    simpl in Ht. apply andb_true_iff in Ht. destruct Ht as [Hc Ht].
    cbn [words_from]. rewrite Hc, (IH Ht). apply app_nil_r.
  - cbn [append words_from]. destruct (is_blank c); now rewrite IH.
Qed.

(* ================================================================== *)
(** * The generated query text                                         *)
(* ================================================================== *)

Section QueryText.

(** The texts of the calls shown in the script. *)
Example read_gbif_from_s3_query_example :
  read_gbif_from_s3_query (VStr "2023-06-01") (VInt 5)
  = "SELECT * FROM read_parquet('s3://gbif-open-data-us-east-1/occurrence/2023-06-01/occurrence.parquet/*') LIMIT 5".
Proof. reflexivity. Qed.

Example query_gbif_with_filter_query_example :
  query_gbif_with_filter_query (VStr "2025-10-01") (VStr "eu-central-1")
    (VStr "US") VNone (VInt 10)
  = "SELECT * FROM read_parquet('s3://gbif-open-data-eu-central-1/occurrence/2025-10-01/occurrence.parquet/*') WHERE 1=1 AND countrycode = 'US' LIMIT 10".
Proof. reflexivity. Qed.

Example truthy_examples :
  truthy (VInt 0) = false /\ truthy (VStr "") = false
  /\ truthy (VInt (-1)) = true /\ str (VInt (-1)) = "-1".
Proof. repeat split. Qed.

(** Bring a text into the shape [literal ++ parameter ++ literal ++ ...]. *)
Ltac norm_text := repeat first [rewrite append_assoc | progress simpl].

(** Count a fragment through such a text: literals by computation,
    parameters across the literal character that follows them. *)
Ltac count_text :=
  repeat first [rewrite append_assoc
               | rewrite occurrences_app_sep by reflexivity
               | progress simpl].

(** The optional limit clause of a scan. *)
Lemma read_gbif_from_s3_query_text (snapshot_date limit : value) :
  read_gbif_from_s3_query snapshot_date limit
  = "SELECT * FROM read_parquet('s3://gbif-open-data-us-east-1/occurrence/"
      ++ str snapshot_date ++ "/occurrence.parquet/*')"
      ++ (if truthy limit then " LIMIT " ++ str limit else "").
Proof.
  unfold read_gbif_from_s3_query, read_gbif_from_s3_s3_path.
  destruct (truthy limit); norm_text; reflexivity.
Qed.

Lemma query_gbif_with_filter_query_text
    (snapshot_date region country_code species limit : value) :
  query_gbif_with_filter_query snapshot_date region country_code species limit
  = "SELECT * FROM read_parquet('s3://gbif-open-data-" ++ str region
      ++ "/occurrence/" ++ str snapshot_date ++ "/occurrence.parquet/*') WHERE 1=1"
      ++ (if truthy country_code
          then " AND countrycode = '" ++ str country_code ++ "'" else "")
      ++ (if truthy species
          then " AND species LIKE '%" ++ str species ++ "%'" else "")
      ++ (if truthy limit then " LIMIT " ++ str limit else "").
Proof.
  unfold query_gbif_with_filter_query, query_gbif_with_filter_s3_path.
  destruct (truthy country_code), (truthy species), (truthy limit);
    norm_text; reflexivity.
Qed.

(** Split a text into words: literals by computation, blank-free
    parameters as part of the word around them. *)
Ltac read_words :=
  unfold words, nl;
  repeat first [rewrite append_assoc
               | rewrite words_from_blank_free by assumption
               | progress cbn].

(** C1 (as amended).  For every region and snapshot date given as strings,
    [get_top_countries_by_species] and [query_gbif_with_filter] build exactly
    [s3://gbif-open-data-<region>/occurrence/<snapshot_date>/occurrence.parquet/*]
    and read from that path; [read_gbif_from_s3] has no region parameter and
    builds the same template with the region [us-east-1]; the ClickHouse
    script has no parameters and names the fixed object URL
    [https://gbif-open-data-eu-central-1.s3.eu-central-1.amazonaws.com/occurrence/2025-11-01/occurrence.parquet/*]. *)
Theorem storage_path_per_function (snapshot_date region : string) :
  (get_top_countries_by_species_s3_path (VStr snapshot_date) (VStr region)
   = storage_path_template "s3" region snapshot_date
   /\ forall limit, exists before after,
        get_top_countries_by_species_query (VStr snapshot_date) (VStr region) limit
        = before ++ "read_parquet('"
            ++ storage_path_template "s3" region snapshot_date ++ "')" ++ after)
  /\ (query_gbif_with_filter_s3_path (VStr snapshot_date) (VStr region)
      = storage_path_template "s3" region snapshot_date
      /\ forall country_code species limit, exists before after,
           query_gbif_with_filter_query (VStr snapshot_date) (VStr region)
             country_code species limit
           = before ++ "read_parquet('"
               ++ storage_path_template "s3" region snapshot_date ++ "')" ++ after)
  /\ (read_gbif_from_s3_s3_path (VStr snapshot_date)
      = storage_path_template "s3" "us-east-1" snapshot_date
      /\ forall limit, exists before after,
           read_gbif_from_s3_query (VStr snapshot_date) limit
           = before ++ "read_parquet('"
               ++ storage_path_template "s3" "us-east-1" snapshot_date
               ++ "')" ++ after)
  /\ (ClickhouseGbif.query_url
      = "https://gbif-open-data-" ++ "eu-central-1"
          ++ ".s3.eu-central-1.amazonaws.com" ++ "/occurrence/" ++ "2025-11-01"
          ++ "/occurrence.parquet/*"
      /\ exists before after,
           ClickhouseGbif.query
           = before ++ "s3('" ++ ClickhouseGbif.query_url ++ "'" ++ after).
Proof.
  repeat split.
  - intros limit.
    exists (nl ++ "        SELECT " ++ nl
      ++ "            countrycode, " ++ nl
      ++ "            COUNT(DISTINCT specieskey) AS distinct_species_count "
      ++ nl ++ "        FROM ").
    exists (nl ++ "        WHERE countrycode IS NOT NULL" ++ nl
      ++ "        GROUP BY countrycode " ++ nl
      ++ "        ORDER BY distinct_species_count DESC " ++ nl
      ++ "        LIMIT " ++ str limit ++ nl ++ "        ").
    unfold get_top_countries_by_species_query,
      get_top_countries_by_species_s3_path, storage_path_template.
    norm_text. reflexivity.
  - intros country_code species limit.
    exists "SELECT * FROM ".
    exists (" WHERE 1=1"
      ++ (if truthy country_code
          then " AND countrycode = '" ++ str country_code ++ "'" else "")
      ++ (if truthy species
          then " AND species LIKE '%" ++ str species ++ "%'" else "")
      ++ (if truthy limit then " LIMIT " ++ str limit else "")).
    rewrite query_gbif_with_filter_query_text.
    unfold storage_path_template. norm_text. reflexivity.
  - intros limit.
    exists "SELECT * FROM ".
    exists (if truthy limit then " LIMIT " ++ str limit else "").
    rewrite read_gbif_from_s3_query_text.
    unfold storage_path_template. norm_text. reflexivity.
  - exists (nl ++ "SELECT countrycode, countDistinct(specieskey) AS distinct_species_count "
              ++ nl ++ "FROM ").
    exists (", Parquet) " ++ nl ++ "GROUP BY countrycode " ++ nl
              ++ "ORDER BY distinct_species_count DESC " ++ nl
              ++ "LIMIT 10" ++ nl).
    reflexivity.
Qed.

(** C1 as the specification states it does not hold for the ClickHouse
    script: the URL in its
    query is no instance of
    [<scheme>://gbif-open-data-<region>/occurrence/<snapshot_date>/occurrence.parquet/*]
    for its region [eu-central-1], whatever the scheme and the date. *)
Lemma clickhouse_url_outside_template :
  ~ (exists scheme snapshot_date,
       ClickhouseGbif.query_url
       = storage_path_template scheme "eu-central-1" snapshot_date).
Proof.
  intros (scheme & snapshot_date & H).
  assert (Hin : 1 <= occurrences "gbif-open-data-eu-central-1/occurrence/"
                       ClickhouseGbif.query_url).
  { rewrite H.
    replace (storage_path_template scheme "eu-central-1" snapshot_date)
      with ((scheme ++ "://") ++ "gbif-open-data-eu-central-1/occurrence/"
              ++ (snapshot_date ++ "/occurrence.parquet/*"))
      by (unfold storage_path_template; norm_text; reflexivity).
    apply occurrences_infix. }
  vm_compute in Hin. lia.
Qed.

(** The longer fragment [LIMIT 5] is absent wherever [LIMIT] is. *)
Lemma limit_free_five (v : value) :
  limit_free v -> occurrences "LIMIT 5" (str v) = 0.
Proof.
  unfold limit_free. intros H.
  pose proof (occurrences_extend_le "LIMIT" " 5" (str v)) as L.
  simpl append in L. lia.
Qed.

(** C3.  With [limit=None] the unfiltered and the filtered scan end where
    the path, resp. the conditions, end: nothing is appended; with [limit=5]
    each is the [limit=None] text followed by [ LIMIT 5].  Counted over the
    whole text, for parameters that do not themselves spell [LIMIT]: no
    [LIMIT] with [limit=None]; one [LIMIT] and one [LIMIT 5] with
    [limit=5]. *)
Theorem limit_clause_none_and_five
    (snapshot_date region country_code species : value) :
  (read_gbif_from_s3_query snapshot_date VNone
   = "SELECT * FROM read_parquet('"
       ++ read_gbif_from_s3_s3_path snapshot_date ++ "')"
   /\ read_gbif_from_s3_query snapshot_date (VInt 5)
      = read_gbif_from_s3_query snapshot_date VNone ++ " LIMIT 5"
   /\ (limit_free snapshot_date ->
       occurrences "LIMIT" (read_gbif_from_s3_query snapshot_date VNone) = 0
       /\ occurrences "LIMIT"
            (read_gbif_from_s3_query snapshot_date (VInt 5)) = 1
       /\ occurrences "LIMIT 5"
            (read_gbif_from_s3_query snapshot_date (VInt 5)) = 1))
  /\ (query_gbif_with_filter_query snapshot_date region country_code species VNone
      = "SELECT * FROM read_parquet('"
          ++ query_gbif_with_filter_s3_path snapshot_date region
          ++ "') WHERE 1=1"
          ++ (if truthy country_code
              then " AND countrycode = '" ++ str country_code ++ "'" else "")
          ++ (if truthy species
              then " AND species LIKE '%" ++ str species ++ "%'" else "")
      /\ query_gbif_with_filter_query
           snapshot_date region country_code species (VInt 5)
         = query_gbif_with_filter_query
             snapshot_date region country_code species VNone ++ " LIMIT 5"
      /\ (limit_free snapshot_date -> limit_free region ->
          limit_free country_code -> limit_free species ->
          occurrences "LIMIT"
            (query_gbif_with_filter_query
               snapshot_date region country_code species VNone) = 0
          /\ occurrences "LIMIT"
               (query_gbif_with_filter_query
                  snapshot_date region country_code species (VInt 5)) = 1
          /\ occurrences "LIMIT 5"
               (query_gbif_with_filter_query
                  snapshot_date region country_code species (VInt 5)) = 1)).
Proof.
  split.
  - split; [reflexivity|]. split.
    + rewrite !read_gbif_from_s3_query_text. norm_text. reflexivity.
    + intros Hd. pose proof (limit_free_five _ Hd) as Hd5.
      unfold limit_free in Hd. rewrite !read_gbif_from_s3_query_text.
      change (str (VInt 5)) with "5". change (truthy (VInt 5)) with true.
      change (truthy VNone) with false. cbv iota.
      repeat split; count_text; lia.
  - rewrite !query_gbif_with_filter_query_text.
    unfold query_gbif_with_filter_s3_path.
    change (str (VInt 5)) with "5". change (truthy (VInt 5)) with true.
    change (truthy VNone) with false. cbv iota.
    split; [|split].
    + destruct (truthy country_code), (truthy species); norm_text; reflexivity.
    + destruct (truthy country_code), (truthy species); norm_text; reflexivity.
    + intros Hd Hr Hc Hs.
      pose proof (limit_free_five _ Hd) as Hd5.
      pose proof (limit_free_five _ Hr) as Hr5.
      pose proof (limit_free_five _ Hc) as Hc5.
      pose proof (limit_free_five _ Hs) as Hs5.
      unfold limit_free in Hd, Hr, Hc, Hs.
      repeat split;
        destruct (truthy country_code), (truthy species); count_text; lia.
Qed.

(** [limit_clause_none_and_five] on a filtered scan with both filters. *)
Lemma limit_clause_none_and_five_witness :
  occurrences "LIMIT"
    (query_gbif_with_filter_query (VStr "2025-10-01") (VStr "eu-central-1")
       (VStr "US") (VStr "Panthera leo") VNone) = 0
  /\ occurrences "LIMIT 5"
       (query_gbif_with_filter_query (VStr "2025-10-01") (VStr "eu-central-1")
          (VStr "US") (VStr "Panthera leo") (VInt 5)) = 1
  /\ occurrences "LIMIT 5"
       (read_gbif_from_s3_query (VStr "2023-06-01") (VInt 5)) = 1.
Proof.
  pose proof (limit_clause_none_and_five (VStr "2025-10-01")
                (VStr "eu-central-1") (VStr "US") (VStr "Panthera leo")) as H.
  pose proof (limit_clause_none_and_five (VStr "2023-06-01")
                VNone VNone VNone) as H'.
  destruct H as [_ [_ [_ H]]]. destruct H' as [[_ [_ H']] _].
  specialize (H eq_refl eq_refl eq_refl eq_refl). specialize (H' eq_refl).
  split; [exact (proj1 H)|].
  split; [exact (proj2 (proj2 H)) | exact (proj2 (proj2 H'))].
Defined.

(** C2.  In the query of [query_gbif_with_filter]: with [country_code="US"]
    and [species=None] the text is the unfiltered text followed by the one
    condition [ AND countrycode = 'US'] (and the limit clause, if any), and
    its words show that condition and no species condition; with both
    [country_code] and [species] supplied (truthy) the text is the
    unfiltered text followed by [ AND countrycode = '<country_code>'] and
    then [ AND species LIKE '%<species>%']. *)
Theorem filter_conditions_appended (snapshot_date region limit : value) :
  query_gbif_with_filter_query snapshot_date region VNone VNone VNone
  = "SELECT * FROM read_parquet('"
      ++ query_gbif_with_filter_s3_path snapshot_date region ++ "') WHERE 1=1"
  /\ query_gbif_with_filter_query snapshot_date region (VStr "US") VNone limit
     = query_gbif_with_filter_query snapshot_date region VNone VNone VNone
         ++ " AND countrycode = 'US'"
         ++ (if truthy limit then " LIMIT " ++ str limit else "")
  /\ (blank_free (str snapshot_date) = true ->
      blank_free (str region) = true ->
      words (query_gbif_with_filter_query
               snapshot_date region (VStr "US") VNone limit)
      = app ["SELECT"; "*"; "FROM";
             "read_parquet('"
               ++ query_gbif_with_filter_s3_path snapshot_date region ++ "')";
             "WHERE"; "1=1"; "AND"; "countrycode"; "="; "'US'"]
            (words (if truthy limit then " LIMIT " ++ str limit else "")))
  /\ (forall country_code species,
        truthy country_code = true -> truthy species = true ->
        query_gbif_with_filter_query
          snapshot_date region country_code species limit
        = query_gbif_with_filter_query snapshot_date region VNone VNone VNone
            ++ " AND countrycode = '" ++ str country_code ++ "'"
            ++ " AND species LIKE '%" ++ str species ++ "%'"
            ++ (if truthy limit then " LIMIT " ++ str limit else "")).
Proof.
  split; [reflexivity|]. split; [|split].
  - rewrite !query_gbif_with_filter_query_text.
    change (truthy (VStr "US")) with true. change (truthy VNone) with false.
    cbv iota. norm_text. reflexivity.
  - intros Hd Hr. rewrite query_gbif_with_filter_query_text.
    unfold query_gbif_with_filter_s3_path.
    change (truthy (VStr "US")) with true. change (truthy VNone) with false.
    cbv iota. destruct (truthy limit); read_words; reflexivity.
  - intros country_code species Hc Hs.
    rewrite !query_gbif_with_filter_query_text. rewrite Hc, Hs.
    change (truthy VNone) with false. cbv iota. norm_text. reflexivity.
Qed.

(** A run of [filter_conditions_appended]: the example call of the script,
    and a call with both filters. *)
Lemma filter_conditions_appended_witness :
  words (query_gbif_with_filter_query (VStr "2025-10-01") (VStr "eu-central-1")
           (VStr "US") VNone (VInt 10))
  = ["SELECT"; "*"; "FROM";
     "read_parquet('s3://gbif-open-data-eu-central-1/occurrence/2025-10-01/occurrence.parquet/*')";
     "WHERE"; "1=1"; "AND"; "countrycode"; "="; "'US'"; "LIMIT"; "10"]
  /\ query_gbif_with_filter_query (VStr "2025-10-01") (VStr "eu-central-1")
       (VStr "GB") (VStr "Panthera leo") VNone
     = "SELECT * FROM read_parquet('s3://gbif-open-data-eu-central-1/occurrence/2025-10-01/occurrence.parquet/*') WHERE 1=1 AND countrycode = 'GB' AND species LIKE '%Panthera leo%'".
Proof.
  pose proof (filter_conditions_appended
                (VStr "2025-10-01") (VStr "eu-central-1")) as H.
  split.
  - exact (proj1 (proj2 (proj2 (H (VInt 10)))) eq_refl eq_refl).
  - exact (proj2 (proj2 (proj2 (H VNone)))
             (VStr "GB") (VStr "Panthera leo") eq_refl eq_refl).
Defined.

(** C4 (as amended).  The query of [get_top_countries_by_species] selects
    [countrycode] and [COUNT(DISTINCT specieskey)], keeps the rows
    [WHERE countrycode IS NOT NULL], groups by [countrycode], orders by the
    count descending and ends in [LIMIT <limit>], [LIMIT 10] for [limit=10].
    The query of the ClickHouse script selects [countrycode] and
    [countDistinct(specieskey)], groups by [countrycode], orders by the
    count descending and ends in [LIMIT 10]; it has no condition on null
    keys. *)
Theorem aggregate_top_n_words (snapshot_date region limit : value) :
  blank_free (str snapshot_date) = true ->
  blank_free (str region) = true ->
  words (get_top_countries_by_species_query snapshot_date region limit)
  = app ["SELECT"; "countrycode,"; "COUNT(DISTINCT"; "specieskey)"; "AS";
         "distinct_species_count"; "FROM";
         "read_parquet('"
           ++ get_top_countries_by_species_s3_path snapshot_date region ++ "')";
         "WHERE"; "countrycode"; "IS"; "NOT"; "NULL";
         "GROUP"; "BY"; "countrycode";
         "ORDER"; "BY"; "distinct_species_count"; "DESC";
         "LIMIT"]
        (words (str limit))
  /\ words (get_top_countries_by_species_query snapshot_date region (VInt 10))
     = ["SELECT"; "countrycode,"; "COUNT(DISTINCT"; "specieskey)"; "AS";
        "distinct_species_count"; "FROM";
        "read_parquet('"
          ++ get_top_countries_by_species_s3_path snapshot_date region ++ "')";
        "WHERE"; "countrycode"; "IS"; "NOT"; "NULL";
        "GROUP"; "BY"; "countrycode";
        "ORDER"; "BY"; "distinct_species_count"; "DESC";
        "LIMIT"; "10"]
  /\ words ClickhouseGbif.query
     = ["SELECT"; "countrycode,"; "countDistinct(specieskey)"; "AS";
        "distinct_species_count"; "FROM";
        "s3('" ++ ClickhouseGbif.query_url ++ "',"; "Parquet)";
        "GROUP"; "BY"; "countrycode";
        "ORDER"; "BY"; "distinct_species_count"; "DESC";
        "LIMIT"; "10"].
Proof.
  intros Hd Hr.
  assert (Hgen : forall l,
    words (get_top_countries_by_species_query snapshot_date region l)
    = app ["SELECT"; "countrycode,"; "COUNT(DISTINCT"; "specieskey)"; "AS";
           "distinct_species_count"; "FROM";
           "read_parquet('"
             ++ get_top_countries_by_species_s3_path snapshot_date region ++ "')";
           "WHERE"; "countrycode"; "IS"; "NOT"; "NULL";
           "GROUP"; "BY"; "countrycode";
           "ORDER"; "BY"; "distinct_species_count"; "DESC";
           "LIMIT"]
          (words (str l))).
  { intros l. unfold get_top_countries_by_species_query,
      get_top_countries_by_species_s3_path.
    read_words.
    rewrite words_from_trailing_blanks by reflexivity. reflexivity. }
  split; [apply Hgen|]. split; [rewrite Hgen; reflexivity|].
  vm_compute. reflexivity.
Qed.

(** A run of [aggregate_top_n_words] on the script's own call. *)
Lemma aggregate_top_n_words_witness :
  words (get_top_countries_by_species_query
           (VStr "2025-10-01") (VStr "eu-central-1") (VInt 10))
  = ["SELECT"; "countrycode,"; "COUNT(DISTINCT"; "specieskey)"; "AS";
     "distinct_species_count"; "FROM";
     "read_parquet('s3://gbif-open-data-eu-central-1/occurrence/2025-10-01/occurrence.parquet/*')";
     "WHERE"; "countrycode"; "IS"; "NOT"; "NULL";
     "GROUP"; "BY"; "countrycode";
     "ORDER"; "BY"; "distinct_species_count"; "DESC";
     "LIMIT"; "10"].
Proof.
  exact (proj1 (proj2 (aggregate_top_n_words (VStr "2025-10-01")
                         (VStr "eu-central-1") (VInt 10) eq_refl eq_refl))).
Defined.

(** C4 as the specification states it does not hold for the ClickHouse
    script: its query has
    no [WHERE] clause and no test for [NULL] anywhere, so rows with a null
    [countrycode] are grouped like any other. *)
Lemma clickhouse_query_keeps_null_keys :
  existsb (String.eqb "WHERE") (words ClickhouseGbif.query) = false
  /\ occurrences "NULL" ClickhouseGbif.query = 0
  /\ occurrences "countrycode IS NOT NULL"
       (get_top_countries_by_species_query
          (VStr "2025-11-01") (VStr "eu-central-1") (VInt 10)) = 1.
Proof. vm_compute. repeat split. Qed.

(** C10.  [get_top_countries_by_species] writes [LIMIT <limit>] into its
    query whatever [limit] is: the text before the clause does not depend on
    [limit], every query has a [LIMIT], and [limit=None] gives the text
    [LIMIT None]; the two scans with [limit=None], unlike it, end at the
    path, resp. at the conditions. *)
Theorem top_countries_limit_unconditional (snapshot_date region : value) :
  (exists head, forall limit,
      get_top_countries_by_species_query snapshot_date region limit
      = head ++ "LIMIT " ++ str limit ++ nl ++ "        ")
  /\ (forall limit,
        1 <= occurrences "LIMIT"
               (get_top_countries_by_species_query snapshot_date region limit))
  /\ 1 <= occurrences "LIMIT None"
            (get_top_countries_by_species_query snapshot_date region VNone)
  /\ read_gbif_from_s3_query snapshot_date VNone
     = "SELECT * FROM read_parquet('"
         ++ read_gbif_from_s3_s3_path snapshot_date ++ "')"
  /\ (forall country_code species,
        query_gbif_with_filter_query snapshot_date region country_code species VNone
        = "SELECT * FROM read_parquet('"
            ++ query_gbif_with_filter_s3_path snapshot_date region
            ++ "') WHERE 1=1"
            ++ (if truthy country_code
                then " AND countrycode = '" ++ str country_code ++ "'" else "")
            ++ (if truthy species
                then " AND species LIKE '%" ++ str species ++ "%'" else "")).
Proof.
  set (head := nl ++ "        SELECT " ++ nl
      ++ "            countrycode, " ++ nl
      ++ "            COUNT(DISTINCT specieskey) AS distinct_species_count "
      ++ nl ++ "        FROM read_parquet('"
      ++ get_top_countries_by_species_s3_path snapshot_date region ++ "')"
      ++ nl ++ "        WHERE countrycode IS NOT NULL" ++ nl
      ++ "        GROUP BY countrycode " ++ nl
      ++ "        ORDER BY distinct_species_count DESC " ++ nl ++ "        ").
  assert (Hshape : forall limit,
             get_top_countries_by_species_query snapshot_date region limit
             = head ++ "LIMIT " ++ str limit ++ nl ++ "        ").
  { intros limit. unfold head, get_top_countries_by_species_query,
      get_top_countries_by_species_s3_path. norm_text. reflexivity. }
  split; [exists head; exact Hshape|].
  split; [|split; [|split]].
  - intros limit. rewrite Hshape.
    change ("LIMIT " ++ str limit ++ nl ++ "        ")
      with ("LIMIT" ++ (" " ++ str limit ++ nl ++ "        ")).
    apply occurrences_infix.
  - rewrite Hshape.
    change ("LIMIT " ++ str VNone ++ nl ++ "        ")
      with ("LIMIT None" ++ (nl ++ "        ")).
    apply occurrences_infix.
  - reflexivity.
  - intros country_code species.
    rewrite query_gbif_with_filter_query_text.
    unfold query_gbif_with_filter_s3_path. change (truthy VNone) with false.
    cbv iota. destruct (truthy country_code), (truthy species);
      norm_text; reflexivity.
Qed.

(** The two scans without a limit, as text: they end at the path, resp.
    at the conditions, and spell no [LIMIT] unless a parameter does. *)
Lemma scans_without_limit (snapshot_date region country_code species : value) :
  (read_gbif_from_s3_query snapshot_date VNone
   = "SELECT * FROM read_parquet('"
       ++ read_gbif_from_s3_s3_path snapshot_date ++ "')"
   /\ (limit_free snapshot_date ->
       occurrences "LIMIT" (read_gbif_from_s3_query snapshot_date VNone) = 0))
  /\ (query_gbif_with_filter_query snapshot_date region country_code species VNone
      = "SELECT * FROM read_parquet('"
          ++ query_gbif_with_filter_s3_path snapshot_date region
          ++ "') WHERE 1=1"
          ++ (if truthy country_code
              then " AND countrycode = '" ++ str country_code ++ "'" else "")
          ++ (if truthy species
              then " AND species LIKE '%" ++ str species ++ "%'" else "")
      /\ (limit_free snapshot_date -> limit_free region ->
          limit_free country_code -> limit_free species ->
          occurrences "LIMIT"
            (query_gbif_with_filter_query
               snapshot_date region country_code species VNone) = 0)).
Proof.
  unfold limit_free. split.
  - split; [reflexivity|]. intros Hd.
    rewrite read_gbif_from_s3_query_text. change (truthy VNone) with false.
    cbv iota. count_text. lia.
  - rewrite !query_gbif_with_filter_query_text.
    unfold query_gbif_with_filter_s3_path. change (truthy VNone) with false.
    cbv iota. split.
    + destruct (truthy country_code), (truthy species); norm_text; reflexivity.
    + intros Hd Hr Hc Hs.
      destruct (truthy country_code), (truthy species); count_text; lia.
Qed.

End QueryText.

(* ================================================================== *)
(** * Sessions, failures and exit paths                               *)
(* ================================================================== *)

Section Sessions.

Context {E : Type}.
Variable engine_execute : E -> nat -> string -> E * outcome DataFrame.

Lemma keeps_sessions_ret {A} (a : A) : keeps_sessions (E:=E) (ret a).
Proof. intros w. reflexivity. Qed.

Lemma keeps_sessions_print (line : string) : keeps_sessions (E:=E) (print line).
Proof. intros w. reflexivity. Qed.

Lemma keeps_sessions_execute (conn : nat) (sql : string) :
  keeps_sessions (execute engine_execute conn sql).
Proof.
  intros w. unfold execute.
  destruct (engine_execute (env w) conn sql) as [e' r]. reflexivity.
Qed.

Lemma keeps_sessions_bind {A B} (c : M E A) (k : A -> M E B) :
  keeps_sessions c -> (forall a, keeps_sessions (k a)) ->
  keeps_sessions (bind c k).
Proof.
  intros Hc Hk w. unfold bind. specialize (Hc w).
  destruct (c w) as [w1 [a|e]]; simpl in *.
  - rewrite (Hk a w1). exact Hc.
  - exact Hc.
Qed.

(** [finally: conn.close()] takes [conn] out of the open sessions whatever
    the body and the handler did. *)
Lemma try_finally_close {A} (body : M E A) (handler : exn -> M E A)
    (conn : nat) (w : world E) :
  keeps_sessions body -> (forall e, keeps_sessions (handler e)) ->
  open_conns (fst (try_except_finally body handler (close conn) w))
  = remove Nat.eq_dec conn (open_conns w).
Proof.
  intros Hb Hh. unfold try_except_finally. specialize (Hb w).
  destruct (body w) as [w1 [a|e]]; simpl in *.
  - now rewrite Hb.
  - destruct (exn_is_Exception e); simpl.
    + specialize (Hh e w1). destruct (handler e w1) as [w2 o2]; simpl in *.
      now rewrite Hh, Hb.
    + now rewrite Hb.
Qed.

Lemma remove_fresh_session (conn : nat) (w w' : world E) :
  open_conns w' = remove Nat.eq_dec conn (conn :: open_conns w) ->
  session_closed conn w w'.
Proof.
  intros H. unfold session_closed. rewrite H. split.
  - apply remove_In.
  - intros c Hc. split.
    + intros Hin. apply in_remove in Hin. destruct Hin as [[->|Hin] _];
        [congruence | exact Hin].
    + intros Hin. apply in_in_remove; [exact Hc | now right].
Qed.

(** With a handler that returns [None] and a body that returns a table,
    the three ways out are the only ones. *)
Lemma try_except_finally_exit_path
    (body : M E (option DataFrame)) (handler : exn -> M E (option DataFrame))
    (conn : nat) (w : world E) :
  returns_table body ->
  (forall e w1, snd (handler e w1) = Returned None) ->
  exit_path (snd (try_except_finally body handler (close conn) w)).
Proof.
  intros Hb Hh. unfold try_except_finally, exit_path. specialize (Hb w).
  destruct (body w) as [w1 [[df|]|e]]; simpl in *.
  - left. now exists df.
  - congruence.
  - destruct (exn_is_Exception e) eqn:He; simpl.
    + specialize (Hh e w1). destruct (handler e w1) as [w2 o2]; simpl in *.
      right; left. exact Hh.
    + right; right. now exists e.
Qed.

Lemma returns_table_bind {A} (c : M E A) (k : A -> M E (option DataFrame)) :
  (forall a, returns_table (k a)) -> returns_table (bind c k).
Proof.
  intros Hk w. unfold bind. destruct (c w) as [w1 [a|e]]; simpl; [|exact I].
  apply Hk.
Qed.

Lemma returns_table_ret (df : DataFrame) : returns_table (E:=E) (ret (Some df)).
Proof. intros w. simpl. discriminate. Qed.

Create HintDb sessions.
#[local] Hint Resolve keeps_sessions_ret keeps_sessions_print keeps_sessions_execute
  returns_table_ret : sessions.

Ltac sessions :=
  repeat first [ apply keeps_sessions_bind; [|intros ?]
               | apply returns_table_bind; intros ?
               | solve [auto with sessions] ].

Lemma read_gbif_from_s3_try_facts conn d l :
  keeps_sessions (read_gbif_from_s3_try engine_execute conn d l)
  /\ returns_table (read_gbif_from_s3_try engine_execute conn d l).
Proof. split; unfold read_gbif_from_s3_try; sessions. Qed.

Lemma get_top_countries_by_species_try_facts conn d r l :
  keeps_sessions (get_top_countries_by_species_try engine_execute conn d r l)
  /\ returns_table (get_top_countries_by_species_try engine_execute conn d r l).
Proof. split; unfold get_top_countries_by_species_try; sessions. Qed.

Lemma query_gbif_with_filter_try_facts conn d r c s l :
  keeps_sessions (query_gbif_with_filter_try engine_execute conn d r c s l)
  /\ returns_table (query_gbif_with_filter_try engine_execute conn d r c s l).
Proof. split; unfold query_gbif_with_filter_try; sessions. Qed.

Lemma read_gbif_from_s3_except_facts e :
  keeps_sessions (E:=E) (read_gbif_from_s3_except e)
  /\ forall w : world E, snd (read_gbif_from_s3_except e w) = Returned None.
Proof. split; [unfold read_gbif_from_s3_except; sessions | reflexivity]. Qed.

Lemma get_top_countries_by_species_except_facts d r e :
  keeps_sessions (E:=E) (get_top_countries_by_species_except d r e)
  /\ forall w : world E, snd (get_top_countries_by_species_except d r e w) = Returned None.
Proof.
  split; [unfold get_top_countries_by_species_except; sessions | reflexivity].
Qed.

Lemma query_gbif_with_filter_except_facts e :
  keeps_sessions (E:=E) (query_gbif_with_filter_except e)
  /\ forall w : world E, snd (query_gbif_with_filter_except e w) = Returned None.
Proof. split; [unfold query_gbif_with_filter_except; sessions | reflexivity]. Qed.

(** The frame shared by the three functions: connect, then
    [try]/[except]/[finally: conn.close()]. *)
Lemma embedded_call_exits
    (body : nat -> M E (option DataFrame))
    (handler : exn -> M E (option DataFrame)) (w : world E) :
  (forall conn, keeps_sessions (body conn) /\ returns_table (body conn)) ->
  (forall e, keeps_sessions (handler e)
             /\ forall w1 : world E, snd (handler e w1) = Returned None) ->
  session_closed (next_conn w) w
    (fst (bind connect
            (fun conn => try_except_finally (body conn) handler (close conn)) w))
  /\ exit_path
       (snd (bind connect
               (fun conn => try_except_finally (body conn) handler (close conn))
               w)).
Proof.
  intros Hb Hh. unfold bind, connect. cbn beta iota. split.
  - apply remove_fresh_session.
    rewrite try_finally_close; [reflexivity | apply Hb | intros e; apply Hh].
  - apply try_except_finally_exit_path; [apply Hb | intros e w1; apply Hh].
Qed.

(** C7.  Each embedded-backend call opens the session [next_conn w], ends
    on one of the three exit paths (a table, [None] after a caught
    exception, or an exception that is not an [Exception]), and on each of
    them that session is closed again while every other session is left as
    it was. *)
Theorem session_closed_on_every_exit
    (snapshot_date region country_code species limit : value) (w : world E) :
  In (next_conn w) (open_conns (fst (connect w)))
  /\ (session_closed (next_conn w) w
     (fst (read_gbif_from_s3 engine_execute snapshot_date limit w))
   /\ exit_path (snd (read_gbif_from_s3 engine_execute snapshot_date limit w)))
  /\ (session_closed (next_conn w) w
        (fst (get_top_countries_by_species engine_execute
                snapshot_date region limit w))
      /\ exit_path
           (snd (get_top_countries_by_species engine_execute
                   snapshot_date region limit w)))
  /\ (session_closed (next_conn w) w
        (fst (query_gbif_with_filter engine_execute
                snapshot_date region country_code species limit w))
      /\ exit_path
           (snd (query_gbif_with_filter engine_execute
                   snapshot_date region country_code species limit w))).
Proof.
  split; [now left|]. split; [|split].
  - apply (embedded_call_exits
             (fun conn => read_gbif_from_s3_try engine_execute conn
                            snapshot_date limit)).
    + intros conn. apply read_gbif_from_s3_try_facts.
    + intros e. apply read_gbif_from_s3_except_facts.
  - apply (embedded_call_exits
             (fun conn => get_top_countries_by_species_try engine_execute conn
                            snapshot_date region limit)).
    + intros conn. apply get_top_countries_by_species_try_facts.
    + intros e. apply get_top_countries_by_species_except_facts.
  - apply (embedded_call_exits
             (fun conn => query_gbif_with_filter_try engine_execute conn
                            snapshot_date region country_code species limit)).
    + intros conn. apply query_gbif_with_filter_try_facts.
    + intros e. apply query_gbif_with_filter_except_facts.
Qed.

End Sessions.

(** The three exit paths, run on concrete engines. *)
Example read_gbif_from_s3_success :
  read_gbif_from_s3 Sample.engine_ok (VStr "2023-06-01") (VInt 5) Sample.w0
  = (mk_world ["Successfully read 2 rows from GBIF"] 1 [] tt,
     Returned (Some Sample.table)).
Proof. vm_compute. reflexivity. Qed.

Example get_top_countries_by_species_success :
  get_top_countries_by_species Sample.engine_ok
    (VStr "2025-10-01") (VStr "eu-central-1") (VInt 10) Sample.w0
  = (mk_world ["Querying GBIF data from eu-central-1...";
               nl ++ "Top 10 countries by distinct species count:"] 1 [] tt,
     Returned (Some Sample.table)).
Proof. vm_compute. reflexivity. Qed.

Example query_gbif_with_filter_interrupted :
  query_gbif_with_filter Sample.engine_interrupted
    (VStr "2025-10-01") (VStr "eu-central-1") (VStr "US") VNone (VInt 10)
    Sample.w0
  = (mk_world [] 1 [] tt, Raised (mk_exn false "KeyboardInterrupt")).
Proof. vm_compute. reflexivity. Qed.

Section Failures.

Context {E : Type}.
Variable engine_execute : E -> nat -> string -> E * outcome DataFrame.
Variable subprocess_run : E -> list string -> E * outcome CompletedProcess.
Variable read_csv : string -> outcome DataFrame.

(** What [try]/[except Exception]/[finally] does with a caught exception. *)
Lemma try_except_finally_caught {A} (body : M E A) (handler : exn -> M E A)
    (final : M E unit) (w w1 w2 w3 : world E) (e : exn) (a : A) :
  body w = (w1, Raised e) -> exn_is_Exception e = true ->
  handler e w1 = (w2, Returned a) -> final w2 = (w3, Returned tt) ->
  try_except_finally body handler final w = (w3, Returned a).
Proof.
  intros Hb He Hh Hf. unfold try_except_finally.
  rewrite Hb, He, Hh, Hf. reflexivity.
Qed.

(** C5.  When the external process ends with a non-zero status,
    [clickhouse_query] prints [Error: ] followed by the captured standard
    error, and returns [None]; it raises nothing and prints nothing else. *)
Theorem clickhouse_query_nonzero_exit
    (query : string) (w : world E) (env' : E) (result : CompletedProcess) :
  subprocess_run (env w) (ClickhouseGbif.cmd query) = (env', Returned result) ->
  returncode result <> 0%Z ->
  clickhouse_query subprocess_run read_csv query w
  = (mk_world (app (console w) ["Error: " ++ stderr result])
       (next_conn w) (open_conns w) env',
     Returned None).
Proof.
  intros Hrun Hrc. unfold clickhouse_query, bind, run. rewrite Hrun.
  apply Z.eqb_neq in Hrc. rewrite Hrc. reflexivity.
Qed.

(** C8.  When the process ends with status 0 and [pandas.read_csv] raises
    on its output, [clickhouse_query] lets that exception through: nothing
    is printed and no value is returned. *)
Theorem clickhouse_query_parse_failure_propagates
    (query : string) (w : world E) (env' : E) (result : CompletedProcess)
    (e : exn) :
  subprocess_run (env w) (ClickhouseGbif.cmd query) = (env', Returned result) ->
  returncode result = 0%Z ->
  read_csv (stdout result) = Raised e ->
  clickhouse_query subprocess_run read_csv query w
  = (mk_world (console w) (next_conn w) (open_conns w) env', Raised e).
Proof.
  intros Hrun Hrc Hcsv. unfold clickhouse_query, bind, run, pd_read_csv.
  rewrite Hrun, Hrc. cbn. rewrite Hcsv. reflexivity.
Qed.

(** C6 (as amended).  When an engine call in the [try] block raises an
    [Exception] [e], [read_gbif_from_s3] and [get_top_countries_by_species]
    print a diagnostic line with [e], the heading [Troubleshooting tips:]
    and three hints, and return [None]; [query_gbif_with_filter] prints the
    single line [Error: <e>] and returns [None].  Nothing is raised, and
    the session is closed. *)
Theorem embedded_failure_reporting
    (snapshot_date region country_code species limit : value)
    (w w1 : world E) (e : exn) :
  exn_is_Exception e = true ->
  (read_gbif_from_s3_try engine_execute (next_conn w) snapshot_date limit
     (fst (connect w)) = (w1, Raised e) ->
   read_gbif_from_s3 engine_execute snapshot_date limit w
   = (mk_world
        (app (console w1)
         ["Error reading from S3: " ++ exn_str e;
          nl ++ "Troubleshooting tips:";
          "1. Ensure the snapshot date exists (e.g., '2023-06-01', '2024-01-01')";
          "2. Check your internet connection";
          "3. Verify the S3 path is correct"])
        (next_conn w1)
        (remove Nat.eq_dec (next_conn w) (open_conns w1)) (env w1),
      Returned None))
  /\ (get_top_countries_by_species_try engine_execute (next_conn w)
        snapshot_date region limit (fst (connect w)) = (w1, Raised e) ->
      get_top_countries_by_species engine_execute snapshot_date region limit w
      = (mk_world
           (app (console w1)
            ["Error querying S3: " ++ exn_str e;
             nl ++ "Troubleshooting tips:";
             "1. Verify snapshot date '" ++ str snapshot_date ++ "' exists";
             "2. Check region '" ++ str region
               ++ "' is correct (us-east-1 or eu-central-1)";
             "3. Ensure internet connection is stable"])
           (next_conn w1)
           (remove Nat.eq_dec (next_conn w) (open_conns w1)) (env w1),
         Returned None))
  /\ (query_gbif_with_filter_try engine_execute (next_conn w)
        snapshot_date region country_code species limit (fst (connect w))
      = (w1, Raised e) ->
      query_gbif_with_filter engine_execute
        snapshot_date region country_code species limit w
      = (mk_world (app (console w1) ["Error: " ++ exn_str e])
           (next_conn w1)
           (remove Nat.eq_dec (next_conn w) (open_conns w1)) (env w1),
         Returned None)).
Proof.
  intros He. split; [|split]; intros Hbody.
  - unfold read_gbif_from_s3, bind. cbn [connect fst] in *.
    erewrite try_except_finally_caught;
      [reflexivity | exact Hbody | exact He | reflexivity |].
    unfold close. cbn. rewrite <- !app_assoc. reflexivity.
  - unfold get_top_countries_by_species, bind. cbn [connect fst] in *.
    erewrite try_except_finally_caught;
      [reflexivity | exact Hbody | exact He | reflexivity |].
    unfold close. cbn. rewrite <- !app_assoc. reflexivity.
  - unfold query_gbif_with_filter, bind. cbn [connect fst] in *.
    erewrite try_except_finally_caught;
      [reflexivity | exact Hbody | exact He | reflexivity |].
    unfold close. cbn. reflexivity.
Qed.

(** C9.  A falsy [limit] ([0], [False], the empty string) is treated as
    [None].  Both scans then carry no limit clause: the unfiltered scan is
    the text up to the path, the filtered scan the text up to its
    conditions, and neither spells [LIMIT] unless another parameter does.
    That is the query of [limit=None], and the whole call behaves as with
    [limit=None]. *)
Theorem falsy_limit_is_no_limit
    (snapshot_date region country_code species limit : value) :
  truthy limit = false ->
  (read_gbif_from_s3_query snapshot_date limit
   = read_gbif_from_s3_query snapshot_date VNone
   /\ read_gbif_from_s3_query snapshot_date limit
      = "SELECT * FROM read_parquet('"
          ++ read_gbif_from_s3_s3_path snapshot_date ++ "')"
   /\ (limit_free snapshot_date ->
       occurrences "LIMIT" (read_gbif_from_s3_query snapshot_date limit) = 0)
   /\ forall w : world E,
        read_gbif_from_s3 engine_execute snapshot_date limit w
        = read_gbif_from_s3 engine_execute snapshot_date VNone w)
  /\ (query_gbif_with_filter_query
        snapshot_date region country_code species limit
      = query_gbif_with_filter_query
          snapshot_date region country_code species VNone
      /\ query_gbif_with_filter_query
           snapshot_date region country_code species limit
         = "SELECT * FROM read_parquet('"
             ++ query_gbif_with_filter_s3_path snapshot_date region
             ++ "') WHERE 1=1"
             ++ (if truthy country_code
                 then " AND countrycode = '" ++ str country_code ++ "'" else "")
             ++ (if truthy species
                 then " AND species LIKE '%" ++ str species ++ "%'" else "")
      /\ (limit_free snapshot_date -> limit_free region ->
          limit_free country_code -> limit_free species ->
          occurrences "LIMIT"
            (query_gbif_with_filter_query
               snapshot_date region country_code species limit) = 0)
      /\ forall w : world E,
           query_gbif_with_filter engine_execute
             snapshot_date region country_code species limit w
           = query_gbif_with_filter engine_execute
               snapshot_date region country_code species VNone w).
Proof.
  intros Hl.
  assert (Hr : read_gbif_from_s3_query snapshot_date limit
               = read_gbif_from_s3_query snapshot_date VNone)
    by (unfold read_gbif_from_s3_query; rewrite Hl; reflexivity).
  assert (Hq : query_gbif_with_filter_query
                 snapshot_date region country_code species limit
               = query_gbif_with_filter_query
                   snapshot_date region country_code species VNone)
    by (unfold query_gbif_with_filter_query; rewrite Hl; reflexivity).
  destruct (scans_without_limit snapshot_date region country_code species)
    as [[Hrt Hrc] [Hqt Hqc]].
  split; [split; [|split; [|split]] | split; [|split; [|split]]].
  - exact Hr.
  - rewrite Hr. exact Hrt.
  - rewrite Hr. exact Hrc.
  - intros w. unfold read_gbif_from_s3, read_gbif_from_s3_try.
    rewrite Hr. reflexivity.
  - exact Hq.
  - rewrite Hq. exact Hqt.
  - rewrite Hq. exact Hqc.
  - intros w. unfold query_gbif_with_filter, query_gbif_with_filter_try.
    rewrite Hq. reflexivity.
Qed.

End Failures.

(** [clickhouse_query_nonzero_exit] on a process that exits with status 1. *)
Lemma clickhouse_query_nonzero_exit_witness :
  clickhouse_query Sample.process_failed Sample.read_csv_sample
    ClickhouseGbif.query Sample.w0
  = (mk_world ["Error: Code: 62. DB::Exception: Syntax error"] 0 [] tt,
     Returned None).
Proof.
  apply (clickhouse_query_nonzero_exit Sample.process_failed
           Sample.read_csv_sample ClickhouseGbif.query Sample.w0 tt
           (mk_completed 1 "" "Code: 62. DB::Exception: Syntax error")).
  - reflexivity.
  - discriminate.
Defined.

(** [clickhouse_query_parse_failure_propagates] on a process that exits
    with status 0 and prints nothing. *)
Lemma clickhouse_query_parse_failure_propagates_witness :
  clickhouse_query Sample.process_silent Sample.read_csv_sample
    ClickhouseGbif.query Sample.w0
  = (Sample.w0, Raised (mk_exn true "No columns to parse from file")).
Proof.
  apply (clickhouse_query_parse_failure_propagates Sample.process_silent
           Sample.read_csv_sample ClickhouseGbif.query Sample.w0 tt
           (mk_completed 0 "" "")); reflexivity.
Defined.

(** [embedded_failure_reporting] on an engine whose remote reads fail. *)
Lemma embedded_failure_reporting_witness :
  read_gbif_from_s3 Sample.engine_io_error (VStr "2025-10-01") (VInt 10)
    Sample.w0
  = (mk_world
       ["Error reading from S3: IO Error: Connection error for HTTP HEAD";
        nl ++ "Troubleshooting tips:";
        "1. Ensure the snapshot date exists (e.g., '2023-06-01', '2024-01-01')";
        "2. Check your internet connection";
        "3. Verify the S3 path is correct"] 1 [] tt,
     Returned None)
  /\ get_top_countries_by_species Sample.engine_io_error
       (VStr "2025-10-01") (VStr "eu-central-1") (VInt 10) Sample.w0
     = (mk_world
          ["Querying GBIF data from eu-central-1...";
           "Error querying S3: IO Error: Connection error for HTTP HEAD";
           nl ++ "Troubleshooting tips:";
           "1. Verify snapshot date '2025-10-01' exists";
           "2. Check region 'eu-central-1' is correct (us-east-1 or eu-central-1)";
           "3. Ensure internet connection is stable"] 1 [] tt,
        Returned None).
Proof.
  split.
  - exact (proj1 (embedded_failure_reporting Sample.engine_io_error
                    (VStr "2025-10-01") (VStr "eu-central-1") VNone VNone
                    (VInt 10) Sample.w0 (mk_world [] 1 [0] tt)
                    (mk_exn true "IO Error: Connection error for HTTP HEAD")
                    eq_refl) eq_refl).
  - exact (proj1 (proj2 (embedded_failure_reporting Sample.engine_io_error
                    (VStr "2025-10-01") (VStr "eu-central-1") VNone VNone
                    (VInt 10) Sample.w0
                    (mk_world ["Querying GBIF data from eu-central-1..."] 1 [0] tt)
                    (mk_exn true "IO Error: Connection error for HTTP HEAD")
                    eq_refl)) eq_refl).
Defined.

(** C6 as the specification states it does not hold for
    [query_gbif_with_filter]: when the
    remote read fails, the one line [Error: <e>] is all it prints; no
    troubleshooting hint follows. *)
Lemma filter_failure_prints_no_hints :
  query_gbif_with_filter Sample.engine_io_error
    (VStr "2025-10-01") (VStr "eu-central-1") (VStr "US") VNone (VInt 10)
    Sample.w0
  = (mk_world ["Error: IO Error: Connection error for HTTP HEAD"] 1 [] tt,
     Returned None).
Proof. vm_compute. reflexivity. Qed.

(** [falsy_limit_is_no_limit] at [limit=0]. *)
Lemma falsy_limit_is_no_limit_witness :
  read_gbif_from_s3_query (VStr "2025-10-01") (VInt 0)
  = "SELECT * FROM read_parquet('s3://gbif-open-data-us-east-1/occurrence/2025-10-01/occurrence.parquet/*')"
  /\ query_gbif_with_filter_query (VStr "2025-10-01") (VStr "eu-central-1")
       (VStr "US") VNone (VInt 0)
     = "SELECT * FROM read_parquet('s3://gbif-open-data-eu-central-1/occurrence/2025-10-01/occurrence.parquet/*') WHERE 1=1 AND countrycode = 'US'"
  /\ occurrences "LIMIT"
       (query_gbif_with_filter_query (VStr "2025-10-01") (VStr "eu-central-1")
          (VStr "US") VNone (VInt 0)) = 0.
Proof.
  pose proof (falsy_limit_is_no_limit Sample.engine_ok (VStr "2025-10-01")
                (VStr "eu-central-1") (VStr "US") VNone (VInt 0) eq_refl) as H.
  destruct H as [[_ [H1 _]] [_ [H2 [H3 _]]]].
  split; [exact H1|]. split; [exact H2|].
  exact (H3 eq_refl eq_refl eq_refl eq_refl).
Defined.

(* ================================================================== *)
(** * More of the scripts' behaviour                                   *)
(* ================================================================== *)

Section MoreQueryText.

Ltac norm_text := repeat first [rewrite append_assoc | progress simpl].
Ltac count_text :=
  repeat first [rewrite append_assoc
               | rewrite occurrences_app_sep by reflexivity
               | progress simpl].
Ltac read_words :=
  unfold words, nl;
  repeat first [rewrite append_assoc
               | rewrite words_from_blank_free by assumption
               | progress cbn].

(** ** Decimal text *)

Lemma string_of_uint_blank_free (d : Decimal.uint) :
  blank_free (NilEmpty.string_of_uint d) = true.
Proof. induction d; simpl; auto. Qed.

Lemma string_of_uint_limit_free (d : Decimal.uint) :
  occurrences "LIMIT" (NilEmpty.string_of_uint d) = 0.
Proof. induction d; simpl; auto. Qed.

Lemma str_int_blank_free (z : Z) : blank_free (str_int z) = true.
Proof.
  unfold str_int. destruct (Z.to_int z) as [d|d]; simpl;
    apply string_of_uint_blank_free.
Qed.

Lemma str_int_limit_free (z : Z) : occurrences "LIMIT" (str_int z) = 0.
Proof.
  unfold str_int. destruct (Z.to_int z) as [d|d]; simpl;
    apply string_of_uint_limit_free.
Qed.

Lemma str_int_nonempty (z : Z) : str_int z <> "".
Proof.
  unfold str_int. destruct z as [|p|p]; simpl; try discriminate.
  pose proof (Unsigned.to_uint_nonnil p) as Hp.
  destruct (Pos.to_uint p); simpl; solve [congruence | discriminate].
Qed.

(** A non-empty blank-free text is one word. *)
Lemma words_from_one_word (s word : string) :
  blank_free s = true -> s <> "" -> words_from word s = [word ++ s].
Proof.
  intros Hb Hne. rewrite <- (append_nil_r s) at 1.
  rewrite (words_from_blank_free s word "" Hb). cbn [words_from].
  destruct s as [|c s]; [congruence|].
  destruct word; reflexivity.
Qed.

(** X9.  Every non-zero integer [limit] that Python converts to text (at
    most 4300 digits), negative ones included, is written out in decimal:
    the scan is the [limit=None] text followed by [ LIMIT <n>]; this is the
    only [LIMIT] of the text when the other parameters do not spell one,
    and the last two words of the unfiltered scan are [LIMIT] and the
    number. *)
Theorem integer_limit_clause
    (snapshot_date region country_code species : value) (n : Z) :
  n <> 0%Z ->
  str_int_defined n ->
  (read_gbif_from_s3_query snapshot_date (VInt n)
   = read_gbif_from_s3_query snapshot_date VNone ++ " LIMIT " ++ str_int n
   /\ (limit_free snapshot_date ->
       occurrences "LIMIT" (read_gbif_from_s3_query snapshot_date (VInt n)) = 1)
   /\ (blank_free (str snapshot_date) = true ->
       words (read_gbif_from_s3_query snapshot_date (VInt n))
       = ["SELECT"; "*"; "FROM";
          "read_parquet('" ++ read_gbif_from_s3_s3_path snapshot_date ++ "')";
          "LIMIT"; str_int n]))
  /\ (query_gbif_with_filter_query
        snapshot_date region country_code species (VInt n)
      = query_gbif_with_filter_query
          snapshot_date region country_code species VNone
          ++ " LIMIT " ++ str_int n
      /\ (limit_free snapshot_date -> limit_free region ->
          limit_free country_code -> limit_free species ->
          occurrences "LIMIT"
            (query_gbif_with_filter_query
               snapshot_date region country_code species (VInt n)) = 1)).
Proof.
  intros Hn _.
  assert (Ht : truthy (VInt n) = true)
    by (cbn; apply negb_true_iff, Z.eqb_neq; exact Hn).
  pose proof (str_int_limit_free n) as Hfree.
  pose proof (str_int_blank_free n) as Hblank.
  pose proof (str_int_nonempty n) as Hne.
  rewrite !read_gbif_from_s3_query_text, !query_gbif_with_filter_query_text.
  unfold read_gbif_from_s3_s3_path. rewrite Ht.
  change (truthy VNone) with false. cbv iota.
  change (str (VInt n)) with (str_int n).
  revert Hfree Hblank Hne. generalize (str_int n). intros t Hfree Hblank Hne.
  split; [split; [|split] | split].
  - norm_text. reflexivity.
  - unfold limit_free. intros Hd. count_text. lia.
  - intros Hd. read_words.
    rewrite (words_from_one_word t "" Hblank Hne). reflexivity.
  - destruct (truthy country_code), (truthy species); norm_text; reflexivity.
  - unfold limit_free. intros Hd Hr Hc Hs.
    destruct (truthy country_code), (truthy species); count_text; lia.
Qed.

(** X8.  A falsy filter value (the empty string, [0], [False]) is no
    filter: the query, and with it the whole call, is that of the filter
    left at [None]. *)
Theorem falsy_filters_are_no_filters
    {E : Type} (engine_execute : E -> nat -> string -> E * outcome DataFrame)
    (snapshot_date region country_code species limit : value) :
  (truthy country_code = false ->
   query_gbif_with_filter_query snapshot_date region country_code species limit
   = query_gbif_with_filter_query snapshot_date region VNone species limit
   /\ forall w : world E,
        query_gbif_with_filter engine_execute
          snapshot_date region country_code species limit w
        = query_gbif_with_filter engine_execute
            snapshot_date region VNone species limit w)
  /\ (truthy species = false ->
      query_gbif_with_filter_query snapshot_date region country_code species limit
      = query_gbif_with_filter_query snapshot_date region country_code VNone limit
      /\ forall w : world E,
           query_gbif_with_filter engine_execute
             snapshot_date region country_code species limit w
           = query_gbif_with_filter engine_execute
               snapshot_date region country_code VNone limit w).
Proof.
  split; intros Hf.
  - assert (Hq : query_gbif_with_filter_query
                   snapshot_date region country_code species limit
                 = query_gbif_with_filter_query
                     snapshot_date region VNone species limit)
      by (unfold query_gbif_with_filter_query; rewrite Hf; reflexivity).
    split; [exact Hq|]. intros w.
    unfold query_gbif_with_filter, query_gbif_with_filter_try.
    rewrite Hq. reflexivity.
  - assert (Hq : query_gbif_with_filter_query
                   snapshot_date region country_code species limit
                 = query_gbif_with_filter_query
                     snapshot_date region country_code VNone limit)
      by (unfold query_gbif_with_filter_query; rewrite Hf; reflexivity).
    split; [exact Hq|]. intros w.
    unfold query_gbif_with_filter, query_gbif_with_filter_try.
    rewrite Hq. reflexivity.
Qed.

(** ** Reading a path back *)

Lemma append_length (a b : string) :
  String.length (a ++ b) = String.length a + String.length b.
Proof. induction a as [|x a IH]; simpl; [reflexivity | now rewrite IH]. Qed.

Lemma append_cancel_l (a x y : string) : a ++ x = a ++ y -> x = y.
Proof.
  induction a as [|c a IH]; simpl; intros H; [exact H|].
  injection H as H. exact (IH H).
Qed.

Lemma append_cancel_r (a b c : string) : a ++ c = b ++ c -> a = b.
Proof.
  revert b. induction a as [|x a IH]; intros [|y b] H; simpl in H.
  - reflexivity.
  - apply (f_equal String.length) in H. simpl in H.
    rewrite append_length in H. lia.
  - apply (f_equal String.length) in H. simpl in H.
    rewrite append_length in H. lia.
  - injection H as -> H. now rewrite (IH b H).
Qed.

(** Two texts cut at the first occurrence of a character agree piecewise. *)
Lemma split_at_first (c : ascii) (p1 p2 x1 x2 : string) :
  mem c p1 = false -> mem c p2 = false ->
  p1 ++ String c x1 = p2 ++ String c x2 -> p1 = p2 /\ x1 = x2.
Proof.
  revert p2. induction p1 as [|a p1 IH]; intros [|b p2] H1 H2 H; simpl in *.
  - injection H as H. now split.
  - injection H as Hc H. subst b. rewrite Ascii.eqb_refl in H2. discriminate.
  - injection H as Hc H. subst a. rewrite Ascii.eqb_refl in H1. discriminate.
  - injection H as -> H.
    apply orb_false_iff in H1. apply orb_false_iff in H2.
    destruct (IH p2 (proj2 H1) (proj2 H2) H) as [-> ->]. now split.
Qed.

(** X10.  The storage path determines the dataset copy it addresses: two
    paths built from slash-free regions are equal only for the same region
    and the same snapshot date; for [read_gbif_from_s3], whose region is
    fixed, only for the same date. *)
Theorem storage_path_determines_dataset (r1 r2 d1 d2 : string) :
  (mem "/" r1 = false -> mem "/" r2 = false ->
   get_top_countries_by_species_s3_path (VStr d1) (VStr r1)
   = get_top_countries_by_species_s3_path (VStr d2) (VStr r2) ->
   r1 = r2 /\ d1 = d2)
  /\ (mem "/" r1 = false -> mem "/" r2 = false ->
      query_gbif_with_filter_s3_path (VStr d1) (VStr r1)
      = query_gbif_with_filter_s3_path (VStr d2) (VStr r2) ->
      r1 = r2 /\ d1 = d2)
  /\ (read_gbif_from_s3_s3_path (VStr d1) = read_gbif_from_s3_s3_path (VStr d2) ->
      d1 = d2).
Proof.
  assert (Hpair : mem "/" r1 = false -> mem "/" r2 = false ->
                  "s3://gbif-open-data-" ++ r1 ++ "/occurrence/" ++ d1
                    ++ "/occurrence.parquet/*"
                  = "s3://gbif-open-data-" ++ r2 ++ "/occurrence/" ++ d2
                      ++ "/occurrence.parquet/*" ->
                  r1 = r2 /\ d1 = d2).
  { intros H1 H2 H. apply append_cancel_l in H.
    change ("/occurrence/" ++ d1 ++ "/occurrence.parquet/*")
      with (String "/" ("occurrence/" ++ d1 ++ "/occurrence.parquet/*")) in H.
    change ("/occurrence/" ++ d2 ++ "/occurrence.parquet/*")
      with (String "/" ("occurrence/" ++ d2 ++ "/occurrence.parquet/*")) in H.
    destruct (split_at_first _ _ _ _ _ H1 H2 H) as [Hr Hx].
    split; [exact Hr|].
    apply append_cancel_l in Hx. exact (append_cancel_r _ _ _ Hx). }
  split; [exact Hpair|]. split; [exact Hpair|].
  unfold read_gbif_from_s3_s3_path. cbn [str]. intros H.
  apply append_cancel_l in H. exact (append_cancel_r _ _ _ H).
Qed.

(** With a slash in the region the path is ambiguous. *)
Example storage_path_ambiguous_with_slash :
  get_top_countries_by_species_s3_path (VStr "c") (VStr "a/occurrence/b")
  = get_top_countries_by_species_s3_path (VStr "b/occurrence/c") (VStr "a").
Proof. reflexivity. Qed.

End MoreQueryText.

Section Subprocess.

Context {E : Type}.
Variable subprocess_run : E -> list string -> E * outcome CompletedProcess.
Variable read_csv : string -> outcome DataFrame.
Variable df_str : DataFrame -> string.

(** X1.  Once the process has run, [clickhouse_query] returns [None]
    exactly when the exit status is not 0; with status 0 it ends as
    [pandas.read_csv] ends on the captured output, and prints nothing. *)
Theorem clickhouse_query_none_iff_nonzero
    (query : string) (w : world E) (env' : E) (result : CompletedProcess) :
  subprocess_run (env w) (ClickhouseGbif.cmd query) = (env', Returned result) ->
  (snd (clickhouse_query subprocess_run read_csv query w) = Returned None
   <-> returncode result <> 0%Z)
  /\ (returncode result = 0%Z ->
      clickhouse_query subprocess_run read_csv query w
      = (mk_world (console w) (next_conn w) (open_conns w) env',
         match read_csv (stdout result) with
         | Returned df => Returned (Some df)
         | Raised e => Raised e
         end)).
Proof.
  intros Hrun. unfold clickhouse_query, bind, run, pd_read_csv. rewrite Hrun.
  destruct (Z.eqb_spec (returncode result) 0) as [Hz|Hnz]; cbn.
  - split.
    + destruct (read_csv (stdout result)); cbn; split; intros H;
        solve [discriminate | congruence].
    + intros _. destruct (read_csv (stdout result)); reflexivity.
  - split; [split; [intros _; exact Hnz | reflexivity] | congruence].
Qed.

(** X2.  When [subprocess.run] itself raises (no executable, for one),
    [clickhouse_query] neither prints nor returns: the exception leaves
    it, also when it is an [Exception]. *)
Theorem clickhouse_query_run_failure_propagates
    (query : string) (w : world E) (env' : E) (e : exn) :
  subprocess_run (env w) (ClickhouseGbif.cmd query) = (env', Raised e) ->
  clickhouse_query subprocess_run read_csv query w
  = (mk_world (console w) (next_conn w) (open_conns w) env', Raised e).
Proof.
  intros Hrun. unfold clickhouse_query, bind, run. rewrite Hrun. reflexivity.
Qed.

(** X3.  The ClickHouse script does not test the result: after a non-zero
    exit it prints the error line and then the text [None], and ends
    normally; it raises exactly when [clickhouse_query] does. *)
Theorem clickhouse_gbif_main_prints_sentinel (w : world E) :
  (forall env' result,
      subprocess_run (env w) (ClickhouseGbif.cmd ClickhouseGbif.query)
      = (env', Returned result) ->
      returncode result <> 0%Z ->
      clickhouse_gbif_main subprocess_run read_csv df_str w
      = (mk_world (app (console w) ["Error: " ++ stderr result; "None"])
           (next_conn w) (open_conns w) env',
         Returned tt))
  /\ (forall e,
        snd (clickhouse_gbif_main subprocess_run read_csv df_str w) = Raised e
        <-> snd (clickhouse_query subprocess_run read_csv ClickhouseGbif.query w)
            = Raised e).
Proof.
  split.
  - intros env' result Hrun Hrc. unfold clickhouse_gbif_main, bind.
    unfold clickhouse_query, bind, run. rewrite Hrun.
    apply Z.eqb_neq in Hrc. rewrite Hrc. unfold print, ret. cbn.
    rewrite <- app_assoc. reflexivity.
  - intros e. unfold clickhouse_gbif_main, bind.
    destruct (clickhouse_query subprocess_run read_csv ClickhouseGbif.query w)
      as [w1 [df|e1]]; unfold print; cbn; split; intros H;
      first [discriminate H | injection H as ->; reflexivity].
Qed.

End Subprocess.

Lemma clickhouse_query_none_iff_nonzero_witness :
  clickhouse_query Demo.process_ok Sample.read_csv_sample ClickhouseGbif.query
    Sample.w0
  = (Sample.w0,
     Returned (Some (mk_df ["countrycode,distinct_species_count" ++ nl
                              ++ "US,3" ++ nl] []))).
Proof.
  exact (proj2 (clickhouse_query_none_iff_nonzero Demo.process_ok
                  Sample.read_csv_sample ClickhouseGbif.query Sample.w0 tt
                  (mk_completed 0
                     ("countrycode,distinct_species_count" ++ nl ++ "US,3" ++ nl)
                     "")
                  eq_refl) eq_refl).
Defined.

Lemma clickhouse_query_run_failure_propagates_witness :
  clickhouse_query Demo.process_missing Sample.read_csv_sample
    ClickhouseGbif.query Sample.w0
  = (Sample.w0,
     Raised (mk_exn true "[Errno 2] No such file or directory: './clickhouse'")).
Proof.
  exact (clickhouse_query_run_failure_propagates Demo.process_missing
           Sample.read_csv_sample ClickhouseGbif.query Sample.w0 tt
           (mk_exn true "[Errno 2] No such file or directory: './clickhouse'")
           eq_refl).
Defined.

Lemma clickhouse_gbif_main_prints_sentinel_witness :
  clickhouse_gbif_main Sample.process_failed Sample.read_csv_sample
    Demo.header_line Sample.w0
  = (mk_world ["Error: Code: 62. DB::Exception: Syntax error"; "None"] 0 [] tt,
     Returned tt).
Proof.
  refine (proj1 (clickhouse_gbif_main_prints_sentinel Sample.process_failed
                   Sample.read_csv_sample Demo.header_line Sample.w0)
            tt (mk_completed 1 "" "Code: 62. DB::Exception: Syntax error")
            eq_refl _).
  discriminate.
Defined.

Section EmbeddedRuns.

Context {E : Type}.
Variable engine_execute : E -> nat -> string -> E * outcome DataFrame.

(** Run a call by cases on what the engine answers to each statement. *)
Ltac run_engine :=
  repeat match goal with
    | |- context [engine_execute ?a ?b ?c] =>
        destruct (engine_execute a b c) as [? [?|?]]; cbn in *
    | |- context [exn_is_Exception ?x] =>
        destruct (exn_is_Exception x); cbn in *
    | H : context [engine_execute ?a ?b ?c] |- _ =>
        destruct (engine_execute a b c) as [? [?|?]]; cbn in *
    | H : context [exn_is_Exception ?x] |- _ =>
        destruct (exn_is_Exception x); cbn in *
    end.

Ltac open_call :=
  unfold read_gbif_from_s3, read_gbif_from_s3_try, read_gbif_from_s3_except,
    get_top_countries_by_species, get_top_countries_by_species_try,
    get_top_countries_by_species_except,
    query_gbif_with_filter, query_gbif_with_filter_try,
    query_gbif_with_filter_except,
    try_except_finally, bind, connect, execute, close, print, ret in *.

(** What [try]/[except Exception]/[finally] does with an exception that is
    not an [Exception]. *)
Lemma try_except_finally_uncaught {A} (body : M E A) (handler : exn -> M E A)
    (final : M E unit) (w w1 w3 : world E) (e : exn) :
  body w = (w1, Raised e) -> exn_is_Exception e = false ->
  final w1 = (w3, Returned tt) ->
  try_except_finally body handler final w = (w3, Raised e).
Proof.
  intros Hb He Hf. unfold try_except_finally. rewrite Hb, He, Hf. reflexivity.
Qed.

(** X4.  An exception that is not an [Exception] (an interrupt from the
    keyboard) is not reported as a failure: the handler prints nothing, the
    exception leaves the call, and the session is closed. *)
Theorem embedded_interrupt_not_reported
    (snapshot_date region country_code species limit : value)
    (w w1 : world E) (e : exn) :
  exn_is_Exception e = false ->
  (read_gbif_from_s3_try engine_execute (next_conn w) snapshot_date limit
     (fst (connect w)) = (w1, Raised e) ->
   read_gbif_from_s3 engine_execute snapshot_date limit w
   = (mk_world (console w1) (next_conn w1)
        (remove Nat.eq_dec (next_conn w) (open_conns w1)) (env w1),
      Raised e))
  /\ (get_top_countries_by_species_try engine_execute (next_conn w)
        snapshot_date region limit (fst (connect w)) = (w1, Raised e) ->
      get_top_countries_by_species engine_execute snapshot_date region limit w
      = (mk_world (console w1) (next_conn w1)
           (remove Nat.eq_dec (next_conn w) (open_conns w1)) (env w1),
         Raised e))
  /\ (query_gbif_with_filter_try engine_execute (next_conn w)
        snapshot_date region country_code species limit (fst (connect w))
      = (w1, Raised e) ->
      query_gbif_with_filter engine_execute
        snapshot_date region country_code species limit w
      = (mk_world (console w1) (next_conn w1)
           (remove Nat.eq_dec (next_conn w) (open_conns w1)) (env w1),
         Raised e)).
Proof.
  intros He. split; [|split]; intros Hbody.
  - unfold read_gbif_from_s3, bind. cbn [connect fst] in *.
    erewrite try_except_finally_uncaught;
      [reflexivity | exact Hbody | exact He | reflexivity].
  - unfold get_top_countries_by_species, bind. cbn [connect fst] in *.
    erewrite try_except_finally_uncaught;
      [reflexivity | exact Hbody | exact He | reflexivity].
  - unfold query_gbif_with_filter, bind. cbn [connect fst] in *.
    erewrite try_except_finally_uncaught;
      [reflexivity | exact Hbody | exact He | reflexivity].
Qed.

(** X5.  A call that returns a table has printed exactly its success
    lines: the two scans report the number of rows of the table they
    return; [get_top_countries_by_species] prints its progress line and a
    heading that quotes [limit], whatever the number of rows returned. *)
Theorem embedded_success_report
    (snapshot_date region country_code species limit : value)
    (w : world E) (df : DataFrame) :
  (snd (read_gbif_from_s3 engine_execute snapshot_date limit w)
   = Returned (Some df) ->
   console (fst (read_gbif_from_s3 engine_execute snapshot_date limit w))
   = app (console w)
       ["Successfully read " ++ str_int (len df) ++ " rows from GBIF"])
  /\ (snd (get_top_countries_by_species engine_execute
             snapshot_date region limit w) = Returned (Some df) ->
      console (fst (get_top_countries_by_species engine_execute
                      snapshot_date region limit w))
      = app (console w)
          ["Querying GBIF data from " ++ str region ++ "...";
           nl ++ "Top " ++ str limit ++ " countries by distinct species count:"])
  /\ (snd (query_gbif_with_filter engine_execute
             snapshot_date region country_code species limit w)
      = Returned (Some df) ->
      console (fst (query_gbif_with_filter engine_execute
                      snapshot_date region country_code species limit w))
      = app (console w)
          ["Query returned " ++ str_int (len df) ++ " rows"]).
Proof.
  split; [|split]; intros H; open_call; cbn in *; run_engine;
    try discriminate H; try (injection H as ->);
    rewrite <- ?app_assoc; reflexivity.
Qed.

End EmbeddedRuns.

Section Statements.

Context {E : Type}.
Variable engine_execute : E -> nat -> string -> E * outcome DataFrame.

Ltac run_engine :=
  repeat match goal with
    | |- context [engine_execute ?a ?b ?c] =>
        destruct (engine_execute a b c) as [? [?|?]]; cbn in *
    | |- context [exn_is_Exception ?x] =>
        destruct (exn_is_Exception x); cbn in *
    | H : context [engine_execute ?a ?b ?c] |- _ =>
        destruct (engine_execute a b c) as [? [?|?]]; cbn in *
    | H : context [exn_is_Exception ?x] |- _ =>
        destruct (exn_is_Exception x); cbn in *
    end.

Ltac open_call :=
  unfold read_gbif_from_s3, read_gbif_from_s3_try, read_gbif_from_s3_except,
    get_top_countries_by_species, get_top_countries_by_species_try,
    get_top_countries_by_species_except,
    query_gbif_with_filter, query_gbif_with_filter_try,
    query_gbif_with_filter_except,
    try_except_finally, bind, connect, execute, close, print, ret in *.


(** Recording changes nothing else: the traced run prints, returns and
    leaves the sessions as the plain run does. *)
Lemma traced_run_same
    (snapshot_date region country_code species limit : value)
    (w : world (E * list (nat * string))) :
  (untraced (fst (read_gbif_from_s3 (traced engine_execute)
                    snapshot_date limit w))
   = fst (read_gbif_from_s3 engine_execute snapshot_date limit (untraced w))
   /\ snd (read_gbif_from_s3 (traced engine_execute) snapshot_date limit w)
      = snd (read_gbif_from_s3 engine_execute snapshot_date limit (untraced w)))
  /\ (untraced (fst (get_top_countries_by_species (traced engine_execute)
                       snapshot_date region limit w))
      = fst (get_top_countries_by_species engine_execute
               snapshot_date region limit (untraced w))
      /\ snd (get_top_countries_by_species (traced engine_execute)
                snapshot_date region limit w)
         = snd (get_top_countries_by_species engine_execute
                  snapshot_date region limit (untraced w)))
  /\ (untraced (fst (query_gbif_with_filter (traced engine_execute)
                       snapshot_date region country_code species limit w))
      = fst (query_gbif_with_filter engine_execute
               snapshot_date region country_code species limit (untraced w))
      /\ snd (query_gbif_with_filter (traced engine_execute)
                snapshot_date region country_code species limit w)
         = snd (query_gbif_with_filter engine_execute
                  snapshot_date region country_code species limit (untraced w))).
Proof.
  destruct w as [out n conns [e log]]. unfold untraced.
  split; [|split].
  - open_call.
    set (q := read_gbif_from_s3_query snapshot_date limit). clearbody q.
    unfold traced. cbn. run_engine; split; reflexivity.
  - open_call.
    set (q := get_top_countries_by_species_query snapshot_date region limit).
    set (s := "SET s3_region='" ++ str region ++ "';"). clearbody q s.
    unfold traced. cbn. run_engine; split; reflexivity.
  - open_call.
    set (q := query_gbif_with_filter_query
                snapshot_date region country_code species limit).
    set (s := "SET s3_region='" ++ str region ++ "';"). clearbody q s.
    unfold traced. cbn. run_engine; split; reflexivity.
Qed.

End Statements.

Section SessionInvariant.

Context {E : Type}.
Variable engine_execute : E -> nat -> string -> E * outcome DataFrame.
Variable to_string : DataFrame -> string.

Ltac run_engine :=
  repeat match goal with
    | |- context [engine_execute ?a ?b ?c] =>
        destruct (engine_execute a b c) as [? [?|?]]; cbn -[remove] in *
    | |- context [exn_is_Exception ?x] =>
        destruct (exn_is_Exception x) eqn:?; cbn -[remove] in *
    end.

Ltac open_call :=
  unfold read_gbif_from_s3, read_gbif_from_s3_try, read_gbif_from_s3_except,
    get_top_countries_by_species, get_top_countries_by_species_try,
    get_top_countries_by_species_except,
    query_gbif_with_filter, query_gbif_with_filter_try,
    query_gbif_with_filter_except,
    try_except_finally, bind, connect, execute, close, print, ret in *.

Lemma remove_fresh_handle (n : nat) (conns : list nat) :
  Forall (fun conn => conn < n) conns ->
  remove Nat.eq_dec n (n :: conns) = conns.
Proof.
  intros H. cbn [remove]. destruct (Nat.eq_dec n n) as [_|Hn]; [|congruence].
  apply notin_remove. intros Hin.
  rewrite Forall_forall in H. specialize (H n Hin). lia.
Qed.

Lemma handles_fresh_next (n : nat) (conns : list nat) :
  Forall (fun conn => conn < n) conns ->
  Forall (fun conn => conn < S n) conns.
Proof. apply Forall_impl. intros a Ha. lia. Qed.

(** X7.  Started with every open session below the next handle, a call
    takes exactly one new handle and ends with exactly the sessions that
    were open before, however the engine answered; so the same holds
    after any number of calls. *)
Theorem embedded_calls_restore_sessions
    (snapshot_date region country_code species limit : value) (w : world E) :
  handles_fresh w ->
  (let w' := fst (read_gbif_from_s3 engine_execute snapshot_date limit w) in
   handles_fresh w' /\ open_conns w' = open_conns w
   /\ next_conn w' = S (next_conn w))
  /\ (let w' := fst (get_top_countries_by_species engine_execute
                       snapshot_date region limit w) in
      handles_fresh w' /\ open_conns w' = open_conns w
      /\ next_conn w' = S (next_conn w))
  /\ (let w' := fst (query_gbif_with_filter engine_execute
                       snapshot_date region country_code species limit w) in
      handles_fresh w' /\ open_conns w' = open_conns w
      /\ next_conn w' = S (next_conn w)).
Proof.
  destruct w as [out n conns e]. unfold handles_fresh. cbn. intros H.
  split; [|split].
  - open_call.
    set (q := read_gbif_from_s3_query snapshot_date limit). clearbody q.
    cbn -[remove]. run_engine; rewrite (remove_fresh_handle _ _ H);
      (split; [apply handles_fresh_next; exact H | split; reflexivity]).
  - open_call.
    set (q := get_top_countries_by_species_query snapshot_date region limit).
    set (s := "SET s3_region='" ++ str region ++ "';"). clearbody q s.
    cbn -[remove]. run_engine; rewrite (remove_fresh_handle _ _ H);
      (split; [apply handles_fresh_next; exact H | split; reflexivity]).
  - open_call.
    set (q := query_gbif_with_filter_query
                snapshot_date region country_code species limit).
    set (s := "SET s3_region='" ++ str region ++ "';"). clearbody q s.
    cbn -[remove]. run_engine; rewrite (remove_fresh_handle _ _ H);
      (split; [apply handles_fresh_next; exact H | split; reflexivity]).
Qed.

(** X11.  Everything the [__main__] block of [duck_gbif.py] prints, from
    what the engine answers to the four statements of its call.  After the
    banner: when the query returns a table, the progress line, the heading,
    a rule of 50 [=] after an empty line, that table and a second rule;
    when a statement raises an [Exception], the diagnostic with its text
    and the three hints, and no rule and no table; when it raises another
    exception, nothing, and the exception leaves the block.  The progress
    line stands before the diagnostic exactly when the statement that
    raised is the query, the fourth one. *)
Theorem duck_gbif_main_console (w : world E) :
  let banner := "Querying GBIF occurrence data from S3..." ++ nl in
  let progress := "Querying GBIF data from eu-central-1..." in
  let rule := repeat_string "=" 50 in
  let '(e', sent, r) :=
    send_until_raise engine_execute (env w)
      (next_conn w, "INSTALL httpfs;")
      [(next_conn w, "LOAD httpfs;");
       (next_conn w, "SET s3_region='eu-central-1';");
       (next_conn w,
        get_top_countries_by_species_query
          (VStr "2025-10-01") (VStr "eu-central-1") (VInt 10))] in
  let before := if Nat.leb 4 (List.length sent) then [progress] else [] in
  duck_gbif_main engine_execute to_string w
  = (mk_world
       (app (console w)
          (banner ::
           match r with
           | Returned df =>
               [progress;
                nl ++ "Top 10 countries by distinct species count:";
                nl ++ rule; to_string df; rule]
           | Raised x =>
               if exn_is_Exception x
               then app before
                      ["Error querying S3: " ++ exn_str x;
                       nl ++ "Troubleshooting tips:";
                       "1. Verify snapshot date '2025-10-01' exists";
                       "2. Check region 'eu-central-1' is correct (us-east-1 or eu-central-1)";
                       "3. Ensure internet connection is stable"]
               else before
           end))
       (S (next_conn w))
       (remove Nat.eq_dec (next_conn w) (next_conn w :: open_conns w))
       e',
     match r with
     | Returned _ => Returned tt
     | Raised x => if exn_is_Exception x then Returned tt else Raised x
     end).
Proof.
  destruct w as [out n conns e]. unfold duck_gbif_main. open_call.
  set (q := get_top_countries_by_species_query _ _ _). clearbody q.
  cbn -[remove]. run_engine; rewrite <- ?app_assoc; reflexivity.
Qed.

(** X12.  The [__main__] block leaves no session behind and does not end
    on an [Exception]: it ends normally or on an exception that is not an
    [Exception]. *)
Theorem duck_gbif_main_sessions (w : world E) :
  handles_fresh w ->
  let w' := fst (duck_gbif_main engine_execute to_string w) in
  let o := snd (duck_gbif_main engine_execute to_string w) in
  open_conns w' = open_conns w
  /\ handles_fresh w'
  /\ (o = Returned tt \/ exists e, o = Raised e /\ exn_is_Exception e = false).
Proof.
  destruct w as [out n conns e]. unfold handles_fresh. cbn. intros H.
  unfold duck_gbif_main. open_call.
  set (q := get_top_countries_by_species_query _ _ _). clearbody q.
  cbn -[remove]. run_engine; rewrite (remove_fresh_handle _ _ H);
    (split; [reflexivity|]; split; [apply handles_fresh_next; exact H|]);
    first [left; reflexivity | right; eexists; split; [reflexivity | assumption]].
Qed.

End SessionInvariant.

(** ** Runs on concrete outside worlds *)

(** [integer_limit_clause] at [limit=-3]. *)
Lemma integer_limit_clause_witness :
  read_gbif_from_s3_query (VStr "2023-06-01") (VInt (-3))
  = "SELECT * FROM read_parquet('s3://gbif-open-data-us-east-1/occurrence/2023-06-01/occurrence.parquet/*') LIMIT -3"
  /\ words (read_gbif_from_s3_query (VStr "2023-06-01") (VInt (-3)))
     = ["SELECT"; "*"; "FROM";
        "read_parquet('s3://gbif-open-data-us-east-1/occurrence/2023-06-01/occurrence.parquet/*')";
        "LIMIT"; "-3"].
Proof.
  assert (Hn : (-3 <> 0)%Z) by discriminate.
  assert (Hd : str_int_defined (-3)) by (vm_compute; discriminate).
  pose proof (integer_limit_clause (VStr "2023-06-01") VNone VNone VNone
                (-3) Hn Hd) as [[H1 [_ H2]] _].
  split; [exact H1 | exact (H2 eq_refl)].
Defined.

(** [falsy_filters_are_no_filters] at [country_code=""]. *)
Lemma falsy_filters_are_no_filters_witness :
  query_gbif_with_filter_query (VStr "2025-10-01") (VStr "eu-central-1")
    (VStr "") (VStr "Panthera") (VInt 10)
  = "SELECT * FROM read_parquet('s3://gbif-open-data-eu-central-1/occurrence/2025-10-01/occurrence.parquet/*') WHERE 1=1 AND species LIKE '%Panthera%' LIMIT 10".
Proof.
  exact (proj1 (proj1 (falsy_filters_are_no_filters Sample.engine_ok
                         (VStr "2025-10-01") (VStr "eu-central-1")
                         (VStr "") (VStr "Panthera") (VInt 10)) eq_refl)).
Defined.

(** [storage_path_determines_dataset] on the path of the script's own call. *)
Lemma storage_path_determines_dataset_witness :
  mem "/" "eu-central-1" = false
  /\ ("eu-central-1" = "eu-central-1" /\ "2025-10-01" = "2025-10-01").
Proof.
  split; [reflexivity|].
  exact (proj1 (storage_path_determines_dataset
                  "eu-central-1" "eu-central-1" "2025-10-01" "2025-10-01")
           eq_refl eq_refl eq_refl).
Defined.

(** [embedded_interrupt_not_reported] on an interrupted engine call. *)
Lemma embedded_interrupt_not_reported_witness :
  read_gbif_from_s3 Sample.engine_interrupted (VStr "2023-06-01") (VInt 5)
    Sample.w0
  = (mk_world [] 1 [] tt, Raised (mk_exn false "KeyboardInterrupt")).
Proof.
  exact (proj1 (embedded_interrupt_not_reported Sample.engine_interrupted
                  (VStr "2023-06-01") VNone VNone VNone (VInt 5)
                  Sample.w0 (mk_world [] 1 [0] tt)
                  (mk_exn false "KeyboardInterrupt") eq_refl) eq_refl).
Defined.

(** [embedded_success_report] on an engine that answers with two rows. *)
Lemma embedded_success_report_witness :
  console (fst (query_gbif_with_filter Sample.engine_ok
                  (VStr "2025-10-01") (VStr "eu-central-1") (VStr "US") VNone
                  (VInt 10) Sample.w0))
  = ["Query returned 2 rows"].
Proof.
  exact (proj2 (proj2 (embedded_success_report Sample.engine_ok
                         (VStr "2025-10-01") (VStr "eu-central-1") (VStr "US")
                         VNone (VInt 10) Sample.w0 Sample.table)) eq_refl).
Defined.

(** [embedded_calls_restore_sessions] while another session is open. *)
Lemma embedded_calls_restore_sessions_witness :
  open_conns (fst (read_gbif_from_s3 Sample.engine_io_error
                     (VStr "2023-06-01") (VInt 5) Demo.w_busy)) = [1]
  /\ next_conn (fst (read_gbif_from_s3 Sample.engine_io_error
                       (VStr "2023-06-01") (VInt 5) Demo.w_busy)) = 4.
Proof.
  assert (Hw : handles_fresh Demo.w_busy)
    by (unfold handles_fresh; simpl; repeat constructor).
  pose proof (embedded_calls_restore_sessions Sample.engine_io_error
                (VStr "2023-06-01") VNone VNone VNone (VInt 5)
                Demo.w_busy Hw) as [[_ [H1 H2]] _].
  split; [exact H1 | exact H2].
Defined.

(** [duck_gbif_main_sessions] while another session is open. *)
Lemma duck_gbif_main_sessions_witness :
  open_conns (fst (duck_gbif_main Sample.engine_ok Demo.header_line Demo.w_busy))
  = [1].
Proof.
  assert (Hw : handles_fresh Demo.w_busy)
    by (unfold handles_fresh; simpl; repeat constructor).
  exact (proj1 (duck_gbif_main_sessions Sample.engine_ok Demo.header_line
                  Demo.w_busy Hw)).
Defined.

(** [send_until_raise] sends an initial part of its statements, and all
    of them when the last answer is a table. *)
Lemma send_until_raise_prefix {E}
    (engine_execute : E -> nat -> string -> E * outcome DataFrame)
    (e : E) (first : nat * string) (rest : list (nat * string)) :
  let '(_, sent, r) := send_until_raise engine_execute e first rest in
  sent = firstn (List.length sent) (first :: rest)
  /\ 1 <= List.length sent
  /\ (forall df, r = Returned df -> sent = first :: rest).
Proof.
  revert e first. induction rest as [|next rest IH]; intros e first;
    cbn [send_until_raise].
  - destruct (engine_execute e (fst first) (snd first)) as [e' [df|x]];
      cbn; repeat split; auto.
  - destruct (engine_execute e (fst first) (snd first)) as [e' [df|x]].
    + specialize (IH e' next).
      destruct (send_until_raise engine_execute e' next rest) as [[e'' sent] r].
      destruct IH as [Hs [Hl Hr]]. cbn [List.length firstn].
      split; [now rewrite <- Hs|]. split; [lia|].
      intros df' Hdf. now rewrite (Hr df' Hdf).
    + cbn. repeat split; auto. intros df H. discriminate H.
Qed.

(** It stops at the statement that raises. *)
Example send_until_raise_stops :
  send_until_raise Sample.engine_io_error tt (0, "INSTALL httpfs;")
    [(0, "SELECT * FROM read_parquet('x')"); (0, "LOAD httpfs;")]
  = (tt,
     [(0, "INSTALL httpfs;"); (0, "SELECT * FROM read_parquet('x')")],
     Raised (mk_exn true "IO Error: Connection error for HTTP HEAD")).
Proof. vm_compute. reflexivity. Qed.

(** The statements of a call whose remote read fails: all four were sent. *)
Example statements_sent_before_io_error :
  snd (env (fst (get_top_countries_by_species (traced Sample.engine_io_error)
                   (VStr "2025-10-01") (VStr "eu-central-1") (VInt 10)
                   Demo.w0_traced)))
  = [(0, "INSTALL httpfs;"); (0, "LOAD httpfs;");
     (0, "SET s3_region='eu-central-1';");
     (0, get_top_countries_by_species_query
           (VStr "2025-10-01") (VStr "eu-central-1") (VInt 10))].
Proof. vm_compute. reflexivity. Qed.

(** The statements of an interrupted call: the first one only. *)
Example statements_sent_before_interrupt :
  snd (env (fst (get_top_countries_by_species (traced Sample.engine_interrupted)
                   (VStr "2025-10-01") (VStr "eu-central-1") (VInt 10)
                   Demo.w0_traced)))
  = [(0, "INSTALL httpfs;")].
Proof. vm_compute. reflexivity. Qed.

(** The [__main__] block on an engine that answers. *)
Example duck_gbif_main_success :
  duck_gbif_main Sample.engine_ok Demo.header_line Sample.w0
  = (mk_world
       ["Querying GBIF occurrence data from S3..." ++ nl;
        "Querying GBIF data from eu-central-1...";
        nl ++ "Top 10 countries by distinct species count:";
        nl ++ "==================================================";
        "countrycode distinct_species_count";
        "=================================================="] 1 [] tt,
     Returned tt).
Proof. vm_compute. reflexivity. Qed.
